(** * Announcements endpoints of the High School Management System API

    A shallow embedding of [src/backend/routers/announcements.py].

    - A MongoDB document is a Python [dict]: a finite map from field names
      to values.  The fields the router reads and writes hold either
      [None] or a [str].
    - A [str] is the [string] of its UTF-8 encoding.  [len] counts its
      characters, which are the bytes that are not continuation bytes, and
      the order of two strings byte by byte is their order character by
      character.
    - The [announcements] collection is a finite map from [_id] to the
      remaining fields of the document (MongoDB keeps [_id] unique); the
      [teachers] collection is a finite map from username to the teacher's
      document.
    - The handlers thread the database explicitly: each one takes the state
      and returns its outcome together with the state it leaves behind.
    - What the router takes from libraries is a parameter of the
      development: [bson.ObjectId] (its constructor from a string and its
      [str]) and [datetime.fromisoformat].  The readings of the clock and
      the identifier drawn for an inserted document are inputs of the
      handler that uses them. *)

From stdpp Require Import gmap strings list fin_maps.
From Stdlib Require Import String Ascii.
From Stdlib Require OrderedTypeEx.

Open Scope string_scope.

(** ** Python values and strings *)

(** The values found in the fields of an announcement: [None] or a [str]. *)
Inductive Value : Type :=
  | VNone
  | VStr (s : string).

#[global] Instance Value_eq_dec : EqDecision Value.
Proof. solve_decision. Defined.

(** [bool(s)] for a string: the empty string is falsy. *)
Definition str_truthy (s : string) : bool :=
  match s with
  | EmptyString => false
  | String _ _ => true
  end.

(** [a < b] on Python strings: lexicographic order on the characters,
    which on UTF-8 is the lexicographic order on the bytes. *)
Definition str_lt (a b : string) : bool := String.ltb a b.

(** [a > b] on Python strings. *)
Definition str_gt (a b : string) : bool := String.ltb b a.

(** A byte [10xxxxxx] continues a character of several bytes. *)
Definition is_continuation (c : ascii) : bool :=
  let n := nat_of_ascii c in ((128 <=? n) && (n <? 192))%nat.

(** [len(s)]: the number of characters, one for each byte that starts
    one. *)
Fixpoint len (s : string) : nat :=
  match s with
  | EmptyString => 0
  | String c rest => (if is_continuation c then 0 else 1) + len rest
  end.

(** [s.replace('Z', '+00:00')]: every occurrence is replaced. *)
Fixpoint replace_Z (s : string) : string :=
  match s with
  | EmptyString => EmptyString
  | String c rest =>
      if Ascii.eqb c "Z"%char
      then "+00:00" ++ replace_Z rest
      else String c (replace_Z rest)
  end.

(** A document without its [_id]. *)
Abbreviation Document := (gmap string Value).

(** [d.get(k)]: [None] when the key is missing. *)
Definition py_get (d : Document) (k : string) : Value :=
  default VNone (d !! k).

(** ** Outcomes *)

(** What a request ends with when it does not return: an [HTTPException]
    raised by a handler, the rejection of a body that fails the constraints
    of its pydantic model, the store refusing an insert, or a subscript
    applied to [None]. *)
Inductive Failure : Type :=
  | HTTPException (status_code : nat) (detail : string)
  | RequestValidationError
  | DuplicateKeyError
  | TypeError.

Inductive Outcome (A : Type) : Type :=
  | Return (a : A)
  | Raise (e : Failure).
Arguments Return {A} a.
Arguments Raise {A} e.

(** The error kinds the service contract speaks of. *)
Inductive ErrorKind : Type :=
  | Unauthorized
  | InvalidArgument
  | NotFound.

(** The status of the response: the one the handler gives to its
    [HTTPException], 422 for a body turned down by the validation of its
    model, 500 for an exception nothing catches. *)
Definition http_status (e : Failure) : nat :=
  match e with
  | HTTPException status_code _ => status_code
  | RequestValidationError => 422
  | DuplicateKeyError => 500
  | TypeError => 500
  end.

(** The kind the contract gives to a failure goes by its status: 401,
    400 and 404; any other status is none of the three. *)
Definition kind_of (e : Failure) : option ErrorKind :=
  match http_status e with
  | 401 => Some Unauthorized
  | 400 => Some InvalidArgument
  | 404 => Some NotFound
  | _ => None
  end.

(** ** Request bodies *)

(** [class AnnouncementCreate(BaseModel)] *)
Record AnnouncementCreate : Type := {
  ac_message : string;
  ac_start_date : option string;
  ac_expiration_date : string
}.

(** [class AnnouncementUpdate(BaseModel)] *)
Record AnnouncementUpdate : Type := {
  au_message : option string;
  au_start_date : option string;
  au_expiration_date : option string
}.

(** [Field(..., min_length=1, max_length=500)] *)
Definition message_length_ok (m : string) : bool :=
  ((1 <=? len m) && (len m <=? 500))%nat.

(** The field constraints of [AnnouncementCreate]. *)
Definition AnnouncementCreate_valid (a : AnnouncementCreate) : bool :=
  message_length_ok (ac_message a).

(** The field constraints of [AnnouncementUpdate]: the bounds apply to a
    message that is given. *)
Definition AnnouncementUpdate_valid (a : AnnouncementUpdate) : bool :=
  match au_message a with
  | Some m => message_length_ok m
  | None => true
  end.

(** ** The database and the handlers *)

Section Router.

(** [bson.ObjectId]: the type, its constructor from a string ([None]
    when it raises) and its [str]. *)
Context {ObjectId : Type} `{Countable ObjectId}.
Variable ObjectId_of : string -> option ObjectId.
Variable str_of : ObjectId -> string.

(** [datetime.fromisoformat]: [true] when it returns, [false] when it
    raises [ValueError]. *)
Variable fromisoformat : string -> bool.

(** The two collections of [..database]. *)
Record State : Type := {
  announcements_collection : gmap ObjectId Document;
  teachers_collection : gmap string Document
}.

Definition with_announcements (st : State) (c : gmap ObjectId Document) : State :=
  {| announcements_collection := c;
     teachers_collection := teachers_collection st |}.

(** [teachers_collection.find_one({"_id": username})], then [if not
    teacher]: a document found always carries its [_id], so it is
    truthy; [None] is not. *)
Definition authenticated (st : State) (username : string) : bool :=
  match teachers_collection st !! username with
  | Some _ => true
  | None => false
  end.

(** [announcement["_id"] = str(announcement["_id"])] *)
Definition stringify_id (oid : ObjectId) (d : Document) : Document :=
  <["_id" := VStr (str_of oid)]> d.

(** [datetime.fromisoformat(s.replace('Z', '+00:00'))] returns. *)
Definition parses (s : string) : bool := fromisoformat (replace_Z s).

(** *** GET /announcements *)

(** [announcement.get("start_date") and announcement["start_date"] >
    current_date]; the comparison is evaluated on a truthy value only. *)
Definition not_started (a : Document) (current_date : string) : bool :=
  match py_get a "start_date" with
  | VStr s => str_truthy s && str_gt s current_date
  | VNone => false
  end.

(** [announcement.get("expiration_date") and
    announcement["expiration_date"] < current_date] *)
Definition expired (a : Document) (current_date : string) : bool :=
  match py_get a "expiration_date" with
  | VStr s => str_truthy s && str_lt s current_date
  | VNone => false
  end.

(** The [for] loop over the documents found. *)
Fixpoint active_loop (current_date : string)
    (announcements : list (ObjectId * Document)) : list Document :=
  match announcements with
  | [] => []
  | (oid, announcement) :: rest =>
      if not_started announcement current_date
      then active_loop current_date rest
      else if expired announcement current_date
      then active_loop current_date rest
      else stringify_id oid announcement :: active_loop current_date rest
  end.

(** [current_date] is the reading of the clock, already in ISO format. *)
Definition get_active_announcements (current_date : string) (st : State)
    : list Document :=
  active_loop current_date (map_to_list (announcements_collection st)).

(** *** GET /announcements/all *)

Definition get_all_announcements (username : string) (st : State)
    : Outcome (list Document) :=
  if negb (authenticated st username)
  then Raise (HTTPException 401 "Authentication required")
  else Return (map (fun p => stringify_id p.1 p.2)
                   (map_to_list (announcements_collection st))).

(** *** POST /announcements *)

(** The [try] block of [create_announcement]: [start_date] is parsed
    when it is truthy, [expiration_date] always. *)
Definition create_dates_parse (announcement : AnnouncementCreate) : bool :=
  match ac_start_date announcement with
  | Some s => if str_truthy s then parses s else true
  | None => true
  end && parses (ac_expiration_date announcement).

Definition opt_value (o : option string) : Value :=
  match o with
  | Some s => VStr s
  | None => VNone
  end.

Definition announcement_doc (created_at : string)
    (announcement : AnnouncementCreate) (username : string) : Document :=
  <["message" := VStr (ac_message announcement)]>
  (<["start_date" := opt_value (ac_start_date announcement)]>
  (<["expiration_date" := VStr (ac_expiration_date announcement)]>
  (<["created_by" := VStr username]>
  (<["created_at" := VStr created_at]> ∅)))).

(** [announcements_collection.insert_one(doc)]: [inserted_id] is the
    identifier drawn for the document, which has none of its own; the
    collection keeps [_id] unique, so an identifier already present is
    refused. *)
Definition insert_one (c : gmap ObjectId Document) (inserted_id : ObjectId)
    (d : Document) : option (gmap ObjectId Document) :=
  match c !! inserted_id with
  | Some _ => None
  | None => Some (<[inserted_id := d]> c)
  end.

(** [created_at] is the reading of the clock at line 94. *)
Definition create_announcement (created_at : string) (inserted_id : ObjectId)
    (announcement : AnnouncementCreate) (username : string) (st : State)
    : Outcome Document * State :=
  if negb (authenticated st username)
  then (Raise (HTTPException 401 "Authentication required"), st)
  else if negb (create_dates_parse announcement)
  then (Raise (HTTPException 400 "Invalid date format"), st)
  else
    let doc := announcement_doc created_at announcement username in
    match insert_one (announcements_collection st) inserted_id doc with
    | None => (Raise DuplicateKeyError, st)
    | Some c => (Return (stringify_id inserted_id doc), with_announcements st c)
    end.

(** *** PUT /announcements/{announcement_id} *)

(** The update document, built field by field; the only check is the
    parse of a given [expiration_date]. *)
Definition build_update_doc (announcement : AnnouncementUpdate)
    : Outcome Document :=
  let d0 : Document := ∅ in
  let d1 := match au_message announcement with
            | Some m => <["message" := VStr m]> d0
            | None => d0
            end in
  let d2 := match au_start_date announcement with
            | Some s => <["start_date" := VStr s]> d1
            | None => d1
            end in
  match au_expiration_date announcement with
  | Some e =>
      if parses e
      then Return (<["expiration_date" := VStr e]> d2)
      else Raise (HTTPException 400 "Invalid date format")
  | None => Return d2
  end.

(** [update_one({"_id": oid}, {"$set": update_doc})]: the fields of
    [update_doc] overwrite those of the matching document. *)
Definition update_one (c : gmap ObjectId Document) (oid : ObjectId)
    (update_doc : Document) : gmap ObjectId Document :=
  match c !! oid with
  | Some d => <[oid := update_doc ∪ d]> c
  | None => c
  end.

Definition update_announcement (announcement_id : string)
    (announcement : AnnouncementUpdate) (username : string) (st : State)
    : Outcome Document * State :=
  if negb (authenticated st username)
  then (Raise (HTTPException 401 "Authentication required"), st)
  else
    match ObjectId_of announcement_id with
    | None => (Raise (HTTPException 400 "Invalid announcement ID"), st)
    | Some oid =>
        (* [if not existing_announcement]: a document found carries its
           [_id], so it is truthy *)
        match announcements_collection st !! oid with
        | None => (Raise (HTTPException 404 "Announcement not found"), st)
        | Some _ =>
            match build_update_doc announcement with
            | Raise e => (Raise e, st)
            | Return update_doc =>
                if decide (update_doc = ∅)
                then (Raise (HTTPException 400 "No fields to update"), st)
                else
                  let c := update_one (announcements_collection st) oid update_doc in
                  match c !! oid with
                  | Some updated =>
                      (Return (stringify_id oid updated), with_announcements st c)
                  | None =>
                      (* [updated_announcement["_id"]] on [None] *)
                      (Raise TypeError, with_announcements st c)
                  end
            end
        end
    end.

(** *** DELETE /announcements/{announcement_id} *)

(** [delete_one({"_id": oid})]: the collection left and [deleted_count]. *)
Definition delete_one (c : gmap ObjectId Document) (oid : ObjectId)
    : gmap ObjectId Document * nat :=
  match c !! oid with
  | Some _ => (delete oid c, 1)
  | None => (c, 0)
  end.

Definition deleted_payload : Document :=
  {[ "message" := VStr "Announcement deleted successfully" ]}.

Definition delete_announcement (announcement_id : string) (username : string)
    (st : State) : Outcome Document * State :=
  if negb (authenticated st username)
  then (Raise (HTTPException 401 "Authentication required"), st)
  else
    match ObjectId_of announcement_id with
    | None => (Raise (HTTPException 400 "Invalid announcement ID"), st)
    | Some oid =>
        let '(c, deleted_count) := delete_one (announcements_collection st) oid in
        if (deleted_count =? 0)%nat
        then (Raise (HTTPException 404 "Announcement not found"), with_announcements st c)
        else (Return deleted_payload, with_announcements st c)
    end.

(** *** The routes *)

(** A handler is given an [AnnouncementCreate] or an [AnnouncementUpdate]
    built from the body of the request, and the model is built only when
    its field constraints hold: a body that fails them is turned down
    before the handler runs.  [DELETE] has no body, so its route is the
    handler. *)
Definition post_announcement (created_at : string) (inserted_id : ObjectId)
    (body : AnnouncementCreate) (username : string) (st : State)
    : Outcome Document * State :=
  if AnnouncementCreate_valid body
  then create_announcement created_at inserted_id body username st
  else (Raise RequestValidationError, st).

Definition put_announcement (announcement_id : string)
    (body : AnnouncementUpdate) (username : string) (st : State)
    : Outcome Document * State :=
  if AnnouncementUpdate_valid body
  then update_announcement announcement_id body username st
  else (Raise RequestValidationError, st).

(** The requests that may write to the store. *)
Inductive Request : Type :=
  | Post (created_at : string) (inserted_id : ObjectId)
         (body : AnnouncementCreate) (username : string)
  | Put (announcement_id : string) (body : AnnouncementUpdate) (username : string)
  | Delete (announcement_id : string) (username : string).

Definition serve (r : Request) (st : State) : Outcome Document * State :=
  match r with
  | Post created_at inserted_id body username =>
      post_announcement created_at inserted_id body username st
  | Put announcement_id body username =>
      put_announcement announcement_id body username st
  | Delete announcement_id username =>
      delete_announcement announcement_id username st
  end.

(** The state after a sequence of requests, served one after the other. *)
Fixpoint serve_all (rs : list Request) (st : State) : State :=
  match rs with
  | [] => st
  | r :: rest => serve_all rest (serve r st).2
  end.

End Router.

Arguments State ObjectId {_ _}.

(** ** An instance to run the handlers on *)

(** A recogniser of hexadecimal digits. *)
Definition is_hex (c : ascii) : bool :=
  let n := nat_of_ascii c in
  ((48 <=? n) && (n <=? 57) || (97 <=? n) && (n <=? 102)
   || (65 <=? n) && (n <=? 70))%nat.

Definition is_digit (c : ascii) : bool :=
  let n := nat_of_ascii c in ((48 <=? n) && (n <=? 57))%nat.

Fixpoint all_chars (p : ascii -> bool) (s : string) : bool :=
  match s with
  | EmptyString => true
  | String c rest => p c && all_chars p rest
  end.

Definition lower (c : ascii) : ascii :=
  let n := nat_of_ascii c in
  if ((65 <=? n) && (n <=? 90))%nat then ascii_of_nat (n + 32) else c.

Fixpoint lowercase (s : string) : string :=
  match s with
  | EmptyString => EmptyString
  | String c rest => String (lower c) (lowercase rest)
  end.

(** An identifier is kept as the 24 hexadecimal digits [str] prints; the
    constructor takes a string of 24 hexadecimal digits. *)
Definition hex_ObjectId_of (s : string) : option string :=
  if (len s =? 24)%nat && all_chars is_hex s then Some (lowercase s) else None.

Definition hex_str_of (oid : string) : string := oid.

(** [shape p s]: [s] has the length of [p], a digit wherever [p] has a
    [d], and the character of [p] elsewhere. *)
Fixpoint shape (p s : string) : bool :=
  match p, s with
  | EmptyString, EmptyString => true
  | String pc p', String c s' =>
      (if Ascii.eqb pc "d"%char then is_digit c else Ascii.eqb pc c) && shape p' s'
  | _, _ => false
  end.

(** A recogniser of the shapes [datetime.isoformat] prints; it stands for
    [datetime.fromisoformat] where the handlers are run on a request. *)
Definition isoformat_shape (s : string) : bool :=
  shape "dddd-dd-dd" s
  || shape "dddd-dd-ddTdd:dd:dd" s
  || shape "dddd-dd-ddTdd:dd:dd+dd:dd" s
  || shape "dddd-dd-ddTdd:dd:dd.dddddd" s
  || shape "dddd-dd-ddTdd:dd:dd.dddddd+dd:dd" s.

Abbreviation HexState := (State string).

Definition now_sample : string := "2026-11-04T09:39:00.123456+00:00".

Definition oid1 : string := "65f1a2b3c4d5e6f708192a01".
Definition oid2 : string := "65f1a2b3c4d5e6f708192a02".
Definition oid3 : string := "65f1a2b3c4d5e6f708192a03".

Definition teachers_sample : gmap string Document :=
  {[ "principal" := {[ "display_name" := VStr "Principal Martinez" ]} ]}.

(** An announcement that runs over [now_sample]. *)
Definition running_doc : Document :=
  announcement_doc "2026-09-01T08:00:00+00:00"
    {| ac_message := "Science fair on Friday";
       ac_start_date := Some "2026-11-01T00:00:00+00:00";
       ac_expiration_date := "2026-11-30T00:00:00+00:00" |}
    "principal".

(** An announcement that expires at [now_sample] exactly. *)
Definition expiring_now_doc : Document :=
  announcement_doc "2026-09-01T08:00:00+00:00"
    {| ac_message := "Library closes early today";
       ac_start_date := None;
       ac_expiration_date := now_sample |}
    "principal".

Definition st_sample : HexState :=
  {| announcements_collection :=
       {[ oid1 := running_doc; oid2 := expiring_now_doc ]};
     teachers_collection := teachers_sample |}.

Definition st_empty : HexState :=
  {| announcements_collection := ∅; teachers_collection := teachers_sample |}.

(** Request bodies. *)
Definition create_body : AnnouncementCreate :=
  {| ac_message := "Picture day is Tuesday";
     ac_start_date := Some "2026-11-05T00:00:00Z";
     ac_expiration_date := "2026-11-12T00:00:00Z" |}.

Definition create_blank_start : AnnouncementCreate :=
  {| ac_message := "Picture day is Tuesday";
     ac_start_date := Some "";
     ac_expiration_date := "2026-11-12T00:00:00Z" |}.

Definition create_bad_expiration : AnnouncementCreate :=
  {| ac_message := "Picture day is Tuesday";
     ac_start_date := None;
     ac_expiration_date := "next week" |}.

Definition create_empty_message : AnnouncementCreate :=
  {| ac_message := "";
     ac_start_date := None;
     ac_expiration_date := "2026-11-12T00:00:00Z" |}.

(** The character of two bytes [U+00E9]. *)
Definition e_acute : string := String "195"%char (String "169"%char EmptyString).

Fixpoint str_repeat (n : nat) (s : string) : string :=
  match n with
  | O => EmptyString
  | S n' => s ++ str_repeat n' s
  end.

(** A message of 251 characters held in 502 bytes. *)
Definition create_accented : AnnouncementCreate :=
  {| ac_message := str_repeat 251 e_acute;
     ac_start_date := None;
     ac_expiration_date := "2026-11-12T00:00:00Z" |}.

Definition update_message_only : AnnouncementUpdate :=
  {| au_message := Some "Science fair moved to Monday";
     au_start_date := None;
     au_expiration_date := None |}.

Definition update_start_whenever : AnnouncementUpdate :=
  {| au_message := None;
     au_start_date := Some "whenever";
     au_expiration_date := None |}.

Definition update_bad_expiration : AnnouncementUpdate :=
  {| au_message := None;
     au_start_date := None;
     au_expiration_date := Some "next week" |}.

Definition update_nothing : AnnouncementUpdate :=
  {| au_message := None; au_start_date := None; au_expiration_date := None |}.

Definition create_past : AnnouncementCreate :=
  {| ac_message := "Bake sale was a success";
     ac_start_date := None;
     ac_expiration_date := "2000-01-01T00:00:00Z" |}.

(** A request whose [start_date] is after its [expiration_date]. *)
Definition create_inverted : AnnouncementCreate :=
  {| ac_message := "Spring concert tickets";
     ac_start_date := Some "2026-12-01T00:00:00Z";
     ac_expiration_date := "2026-11-10T00:00:00Z" |}.

Definition update_all_fields : AnnouncementUpdate :=
  {| au_message := Some "Science fair moved to Monday";
     au_start_date := Some "2026-11-02T00:00:00Z";
     au_expiration_date := Some "2026-12-01T00:00:00Z" |}.

(** ** The contract, in its own words *)

(** The exclusion rule as the contract words it: a date is present when
    the field holds a string. *)
Definition excluded_as_worded (a : Document) (current_date : string) : Prop :=
  (∃ s, a !! "start_date" = Some (VStr s) ∧ str_gt s current_date = true)
  ∨ (∃ s, a !! "expiration_date" = Some (VStr s) ∧ str_lt s current_date = true).

(** The exclusion rule as the handler tests it: a date counts when it
    is truthy, so an empty [expiration_date] is no expiration. *)
Definition excluded (a : Document) (current_date : string) : Prop :=
  (∃ s, a !! "start_date" = Some (VStr s) ∧ str_gt s current_date = true)
  ∨ (∃ s, a !! "expiration_date" = Some (VStr s) ∧ s ≠ ""
          ∧ str_lt s current_date = true).

(** A request fails as kind [k] with the exception [e] and leaves the
    state [st]. *)
Definition fails_as {A S : Type} (k : ErrorKind) (e : Failure)
    (r : Outcome A * S) (st : S) : Prop :=
  r = (Raise e, st) ∧ kind_of e = Some k.

(** The value of a field after an update that may supply it. *)
Definition supplied (given : option string) (prior : option Value) : option Value :=
  match given with
  | Some s => Some (VStr s)
  | None => prior
  end.

(** Every stored message is within the bounds of the models. *)
Definition messages_bounded {ObjectId : Type} `{Countable ObjectId}
    (st : State ObjectId) : Prop :=
  ∀ oid d, announcements_collection st !! oid = Some d →
    ∃ m, d !! "message" = Some (VStr m) ∧ (1 ≤ len m ≤ 500)%nat.

(** No stored announcement has the empty string as [expiration_date]. *)
Definition expirations_not_blank {ObjectId : Type} `{Countable ObjectId}
    (st : State ObjectId) : Prop :=
  ∀ oid d, announcements_collection st !! oid = Some d →
    d !! "expiration_date" ≠ Some (VStr "").

(** Every stored announcement has an [expiration_date] that parses. *)
Definition expirations_parse {ObjectId : Type} `{Countable ObjectId}
    (fromisoformat : string -> bool) (st : State ObjectId) : Prop :=
  ∀ oid d, announcements_collection st !! oid = Some d →
    ∃ e, d !! "expiration_date" = Some (VStr e)
         ∧ parses fromisoformat e = true.

(** [s] has no [Z] in it. *)
Definition Z_free (s : string) : Prop :=
  ∀ n, String.get n s ≠ Some "Z"%char.

(** * Properties *)

(** ** Strings *)

Lemma str_lt_irrefl (s : string) : str_lt s s = false.
Proof.
  unfold str_lt, String.ltb.
  pose proof (String.compare_antisym s s) as Hc.
  destruct (String.compare s s); simpl in Hc; congruence.
Qed.

Lemma str_lt_empty_l (s : string) : str_lt "" s = str_truthy s.
Proof. by destruct s. Qed.

Lemma str_gt_empty_l (s : string) : str_gt "" s = false.
Proof. by destruct s. Qed.

Lemma str_truthy_true (s : string) : str_truthy s = true ↔ s ≠ "".
Proof. destruct s; simpl; split; congruence. Qed.

Lemma message_length_ok_spec (m : string) :
  message_length_ok m = true ↔ (1 ≤ len m ≤ 500)%nat.
Proof.
  unfold message_length_ok.
  rewrite andb_true_iff, !Nat.leb_le. done.
Qed.

Lemma py_get_lookup (d : Document) (k : string) (s : string) :
  py_get d k = VStr s ↔ d !! k = Some (VStr s).
Proof.
  unfold py_get. destruct (d !! k) as [[|t]|]; simpl; split; congruence.
Qed.

(** ** The active window *)

Section ActiveWindow.

Context {ObjectId : Type} `{Countable ObjectId}.
Variable str_of : ObjectId -> string.

Lemma not_started_spec (a : Document) (now : string) :
  not_started a now = true ↔
  ∃ s, a !! "start_date" = Some (VStr s) ∧ str_gt s now = true.
Proof.
  unfold not_started. split.
  - destruct (py_get a "start_date") as [|s] eqn:E; [done|].
    intros [_ Hgt]%andb_true_iff. exists s. by rewrite <- py_get_lookup.
  - intros (s & Hs & Hgt). apply py_get_lookup in Hs. rewrite Hs.
    destruct s as [|c s]; [by rewrite str_gt_empty_l in Hgt|].
    by rewrite Hgt.
Qed.

Lemma expired_spec (a : Document) (now : string) :
  expired a now = true ↔
  ∃ s, a !! "expiration_date" = Some (VStr s) ∧ s ≠ "" ∧ str_lt s now = true.
Proof.
  unfold expired. split.
  - destruct (py_get a "expiration_date") as [|s] eqn:E; [done|].
    intros [Ht Hlt]%andb_true_iff. exists s.
    rewrite <- py_get_lookup. by apply str_truthy_true in Ht.
  - intros (s & Hs & Hne & Hlt). apply py_get_lookup in Hs. rewrite Hs.
    apply str_truthy_true in Hne. by rewrite Hne, Hlt.
Qed.

Lemma excluded_test (a : Document) (now : string) :
  excluded a now ↔ not_started a now || expired a now = true.
Proof.
  rewrite orb_true_iff, not_started_spec, expired_spec. done.
Qed.

Lemma active_loop_filter (now : string) (l : list (ObjectId * Document)) :
  active_loop str_of now l
  = (λ p, stringify_id str_of p.1 p.2)
      <$> filter (λ p, not_started p.2 now || expired p.2 now = false) l.
Proof.
  induction l as [|[oid a] l IH]; [done|]. simpl.
  rewrite filter_cons, IH. simpl.
  destruct (not_started a now), (expired a now); done.
Qed.

Lemma get_active_intro (now : string) (st : State ObjectId)
    (oid : ObjectId) (a : Document) :
  announcements_collection st !! oid = Some a →
  ¬ excluded a now →
  stringify_id str_of oid a ∈ get_active_announcements str_of now st.
Proof.
  intros Hst Hne. unfold get_active_announcements.
  rewrite active_loop_filter. apply list_elem_of_fmap.
  exists (oid, a). split; [done|].
  apply list_elem_of_filter. split; [|by apply elem_of_map_to_list].
  simpl. destruct (not_started a now || expired a now) eqn:E; [|done].
  exfalso. by apply Hne, excluded_test.
Qed.

(** On any store, the list-active operation returns, identifier
    stringified, one record for each stored announcement that is not
    excluded and none for one that is, where an announcement is excluded
    when its [start_date] is a string greater than the current timestamp
    or its [expiration_date] is a non-empty string less than the current
    timestamp.  The operation takes no username and its result does not
    depend on the teachers collection. *)
Theorem list_active_excludes_outside_window (now : string) (st : State ObjectId) :
  (∃ kept : list (ObjectId * Document),
     get_active_announcements str_of now st
     = (λ p, stringify_id str_of p.1 p.2) <$> kept
     ∧ NoDup kept
     ∧ ∀ oid a, (oid, a) ∈ kept ↔
         announcements_collection st !! oid = Some a ∧ ¬ excluded a now)
  ∧ (∀ teachers,
       get_active_announcements str_of now
         {| announcements_collection := announcements_collection st;
            teachers_collection := teachers |}
       = get_active_announcements str_of now st).
Proof.
  split; [|done].
  eexists. split; [apply active_loop_filter|]. split.
  - apply NoDup_filter, NoDup_map_to_list.
  - intros oid a. rewrite list_elem_of_filter, elem_of_map_to_list. simpl.
    rewrite excluded_test. destruct (not_started a now || expired a now).
    + split; intros [? ?]; done.
    + split; intros [? ?]; done.
Qed.

(** C2, as amended: an announcement whose [expiration_date] equals the
    current timestamp is not excluded for it; the list-active operation
    returns it unless its [start_date] is greater than the current
    timestamp. *)
Theorem list_active_keeps_expiring_now (now : string) (st : State ObjectId)
    (oid : ObjectId) (a : Document) :
  announcements_collection st !! oid = Some a →
  a !! "expiration_date" = Some (VStr now) →
  (¬ ∃ s, a !! "start_date" = Some (VStr s) ∧ str_gt s now = true) →
  stringify_id str_of oid a ∈ get_active_announcements str_of now st.
Proof.
  intros Hst Hexp Hstart.
  apply get_active_intro; [done|].
  intros [Hs | (s & Hs & _ & Hlt)]; [done|].
  rewrite Hexp in Hs. simplify_eq. by rewrite str_lt_irrefl in Hlt.
Qed.

End ActiveWindow.

(** ** The handlers *)

Section Handlers.

Context {ObjectId : Type} `{Countable ObjectId}.
Variable ObjectId_of : string -> option ObjectId.
Variable str_of : ObjectId -> string.
Variable fromisoformat : string -> bool.

Local Abbreviation create_announcement := (create_announcement str_of fromisoformat).
Local Abbreviation update_announcement :=
  (update_announcement ObjectId_of str_of fromisoformat).
Local Abbreviation delete_announcement := (delete_announcement ObjectId_of).
Local Abbreviation post_announcement := (post_announcement str_of fromisoformat).
Local Abbreviation put_announcement :=
  (put_announcement ObjectId_of str_of fromisoformat).
Local Abbreviation serve := (serve ObjectId_of str_of fromisoformat).
Local Abbreviation serve_all := (serve_all ObjectId_of str_of fromisoformat).
Local Abbreviation parses := (parses fromisoformat).
Local Abbreviation build_update_doc := (build_update_doc fromisoformat).
Local Abbreviation create_dates_parse := (create_dates_parse fromisoformat).
Local Abbreviation stringify_id := (stringify_id str_of).

Implicit Types (st : State ObjectId) (oid : ObjectId) (d : Document).

Lemma with_announcements_same st :
  with_announcements st (announcements_collection st) = st.
Proof. by destruct st. Qed.


Lemma authenticated_false st username :
  authenticated st username = false ↔ teachers_collection st !! username = None.
Proof.
  unfold authenticated. by destruct (teachers_collection st !! username).
Qed.

(** *** The update document *)

Lemma build_update_doc_lookup (a : AnnouncementUpdate) d :
  build_update_doc a = Return d →
  d !! "message" = VStr <$> au_message a
  ∧ d !! "start_date" = VStr <$> au_start_date a
  ∧ d !! "expiration_date" = VStr <$> au_expiration_date a
  ∧ ∀ k, k ≠ "message" → k ≠ "start_date" → k ≠ "expiration_date" →
         d !! k = None.
Proof.
  unfold build_update_doc.
  destruct (au_message a), (au_start_date a), (au_expiration_date a) as [e|];
    try destruct (parses e); intros [= <-]; simpl;
    repeat split; try (intros k ? ? ?); by simplify_map_eq.
Qed.

Lemma build_update_doc_Raise (a : AnnouncementUpdate) (e : Failure) :
  build_update_doc a = Raise e →
  e = HTTPException 400 "Invalid date format"
  ∧ ∃ x, au_expiration_date a = Some x ∧ parses x = false.
Proof.
  unfold build_update_doc.
  destruct (au_expiration_date a) as [x|]; [|done].
  destruct (parses x) eqn:Hp; [done|].
  intros [= <-]. eauto.
Qed.

Lemma build_update_doc_unparsable (a : AnnouncementUpdate) (x : string) :
  au_expiration_date a = Some x → parses x = false →
  build_update_doc a = Raise (HTTPException 400 "Invalid date format").
Proof.
  intros Hx Hp. unfold build_update_doc. by rewrite Hx, Hp.
Qed.

Lemma build_update_doc_parsable (a : AnnouncementUpdate) :
  (∀ x, au_expiration_date a = Some x → parses x = true) →
  ∃ d, build_update_doc a = Return d.
Proof.
  intros Hp. unfold build_update_doc.
  destruct (au_expiration_date a) as [x|]; [|by eexists].
  rewrite Hp by done. by eexists.
Qed.

Lemma build_update_doc_empty (a : AnnouncementUpdate) d :
  build_update_doc a = Return d →
  d = ∅ ↔ au_message a = None ∧ au_start_date a = None
          ∧ au_expiration_date a = None.
Proof.
  intros (Hm & Hs & He & Hk)%build_update_doc_lookup. split.
  - intros ->. rewrite lookup_empty in Hm, Hs, He.
    destruct (au_message a), (au_start_date a), (au_expiration_date a); done.
  - intros (Em & Es & Ee). rewrite Em in Hm. rewrite Es in Hs. rewrite Ee in He.
    apply map_eq. intros k. rewrite lookup_empty.
    destruct (decide (k = "message")) as [->|]; [done|].
    destruct (decide (k = "start_date")) as [->|]; [done|].
    destruct (decide (k = "expiration_date")) as [->|]; [done|].
    by apply Hk.
Qed.

(** *** What an update that returns has done *)

Lemma update_one_found (c : gmap ObjectId Document) oid (old upd : Document) :
  c !! oid = Some old → update_one c oid upd = <[oid := upd ∪ old]> c.
Proof. intros Hc. unfold update_one. by rewrite Hc. Qed.

Lemma update_announcement_Return id (a : AnnouncementUpdate) username st
    (r : Document) st' :
  update_announcement id a username st = (Return r, st') ↔
  ∃ oid old upd,
    authenticated st username = true
    ∧ ObjectId_of id = Some oid
    ∧ announcements_collection st !! oid = Some old
    ∧ build_update_doc a = Return upd
    ∧ upd ≠ ∅
    ∧ r = stringify_id oid (upd ∪ old)
    ∧ st' = with_announcements st
              (<[oid := upd ∪ old]> (announcements_collection st)).
Proof.
  unfold update_announcement. split.
  - destruct (authenticated st username); simpl; [|done].
    destruct (ObjectId_of id) as [oid|]; [|done].
    destruct (announcements_collection st !! oid) as [old|] eqn:Hold; [|done].
    destruct (build_update_doc a) as [upd|e] eqn:Hb; [|done].
    destruct (decide (upd = ∅)) as [|Hne]; [done|].
    rewrite (update_one_found _ _ old) by done.
    rewrite lookup_insert_eq. intros [= <- <-].
    exists oid, old, upd. done.
  - intros (oid & old & upd & -> & -> & Hold & -> & Hne & -> & ->). simpl.
    rewrite Hold. destruct (decide (upd = ∅)); [done|].
    rewrite (update_one_found _ _ old) by done.
    by rewrite lookup_insert_eq.
Qed.

Lemma update_announcement_Raise id (a : AnnouncementUpdate) username st
    (e : Failure) st' :
  update_announcement id a username st = (Raise e, st') → st' = st.
Proof.
  unfold update_announcement.
  destruct (authenticated st username); simpl; [|by intros [= _ <-]].
  destruct (ObjectId_of id) as [oid|]; [|by intros [= _ <-]].
  destruct (announcements_collection st !! oid) as [old|] eqn:Hold;
    [|by intros [= _ <-]].
  destruct (build_update_doc a) as [upd|e'] eqn:Hb; [|by intros [= _ <-]].
  destruct (decide (upd = ∅)) as [|Hne]; [by intros [= _ <-]|].
  rewrite (update_one_found _ _ old) by done.
  by rewrite lookup_insert_eq.
Qed.

(** C3: an update that returns has changed, in the announcement it names,
    the fields it supplies and no other; every other field of that
    announcement, every other announcement and the teachers are as before,
    and the record returned is the announcement after the update with its
    identifier stringified. *)
Theorem update_changes_only_supplied_fields id (a : AnnouncementUpdate)
    username st (r : Document) st' :
  update_announcement id a username st = (Return r, st') →
  ∃ oid old new,
    ObjectId_of id = Some oid
    ∧ announcements_collection st !! oid = Some old
    ∧ announcements_collection st' !! oid = Some new
    ∧ (au_message a ≠ None ∨ au_start_date a ≠ None
       ∨ au_expiration_date a ≠ None)
    ∧ new !! "message" = supplied (au_message a) (old !! "message")
    ∧ new !! "start_date" = supplied (au_start_date a) (old !! "start_date")
    ∧ new !! "expiration_date"
      = supplied (au_expiration_date a) (old !! "expiration_date")
    ∧ (∀ k, k ≠ "message" → k ≠ "start_date" → k ≠ "expiration_date" →
            new !! k = old !! k)
    ∧ r = stringify_id oid new
    ∧ (∀ oid', oid' ≠ oid →
         announcements_collection st' !! oid'
         = announcements_collection st !! oid')
    ∧ teachers_collection st' = teachers_collection st.
Proof.
  intros (oid & old & upd & _ & Hid & Hold & Hb & Hne & -> & ->)
    %update_announcement_Return.
  exists oid, old, (upd ∪ old). simpl.
  pose proof (build_update_doc_lookup _ _ Hb) as (Hm & Hs & He & Hk).
  split_and!; try done.
  - by rewrite lookup_insert_eq.
  - destruct (au_message a) eqn:Em; [by left|].
    destruct (au_start_date a) eqn:Es; [by right; left|].
    destruct (au_expiration_date a) eqn:Ee; [by right; right|].
    exfalso. apply Hne. by apply (build_update_doc_empty a).
  - rewrite lookup_union, Hm. by destruct (au_message a), (old !! "message").
  - rewrite lookup_union, Hs.
    by destruct (au_start_date a), (old !! "start_date").
  - rewrite lookup_union, He.
    by destruct (au_expiration_date a), (old !! "expiration_date").
  - intros k ? ? ?. rewrite lookup_union, Hk by done. by destruct (old !! k).
  - intros oid' Hne'. by rewrite lookup_insert_ne.
Qed.

(** C5: for an authenticated username, an update fails as
    [InvalidArgument] when the identifier is not a valid [ObjectId]; as
    [NotFound] when it is valid and names no announcement; as
    [InvalidArgument] when the announcement exists and the given
    [expiration_date] does not parse; as [InvalidArgument] when the
    announcement exists and no field is given.  Each check is reached only
    past the ones before it, and a failing update leaves the state as it
    was. *)
Theorem update_failures_in_order id (a : AnnouncementUpdate) username st :
  authenticated st username = true →
  (ObjectId_of id = None →
     fails_as InvalidArgument (HTTPException 400 "Invalid announcement ID")
       (update_announcement id a username st) st)
  ∧ (∀ oid, ObjectId_of id = Some oid →
       announcements_collection st !! oid = None →
       fails_as NotFound (HTTPException 404 "Announcement not found")
         (update_announcement id a username st) st)
  ∧ (∀ oid x, ObjectId_of id = Some oid →
       is_Some (announcements_collection st !! oid) →
       au_expiration_date a = Some x → parses x = false →
       fails_as InvalidArgument (HTTPException 400 "Invalid date format")
         (update_announcement id a username st) st)
  ∧ (∀ oid, ObjectId_of id = Some oid →
       is_Some (announcements_collection st !! oid) →
       au_message a = None → au_start_date a = None →
       au_expiration_date a = None →
       fails_as InvalidArgument (HTTPException 400 "No fields to update")
         (update_announcement id a username st) st)
  ∧ (∀ e st', update_announcement id a username st = (Raise e, st') →
       st' = st).
Proof.
  intros Hauth. unfold fails_as, update_announcement.
  rewrite Hauth. simpl. split_and!.
  - by intros ->.
  - by intros oid -> ->.
  - intros oid x -> [old ->] Hx Hp.
    by rewrite (build_update_doc_unparsable a x).
  - intros oid -> [old ->] Em Es Ee.
    destruct (build_update_doc a) as [upd|e] eqn:Hb.
    + destruct (decide (upd = ∅)) as [|Hne]; [done|].
      exfalso. by apply Hne, (build_update_doc_empty a).
    + apply build_update_doc_Raise in Hb as (_ & x & Hx & _). congruence.
  - intros e st' Hr. apply (update_announcement_Raise id a username st e).
    unfold update_announcement. by rewrite Hauth.
Qed.

(** C10: for an authenticated username and an existing announcement, an
    update that gives a [start_date] stores that string as it is, whatever
    the string; the update returns as soon as the [expiration_date], when
    one is given, parses. *)
Theorem update_start_date_stored_verbatim id (a : AnnouncementUpdate)
    username st oid (old : Document) (s : string) :
  authenticated st username = true →
  ObjectId_of id = Some oid →
  announcements_collection st !! oid = Some old →
  au_start_date a = Some s →
  (∀ x, au_expiration_date a = Some x → parses x = true) →
  ∃ new st',
    update_announcement id a username st = (Return (stringify_id oid new), st')
    ∧ announcements_collection st' !! oid = Some new
    ∧ new !! "start_date" = Some (VStr s).
Proof.
  intros Hauth Hid Hold Hs Hp.
  destruct (build_update_doc_parsable a Hp) as [upd Hb].
  pose proof (build_update_doc_lookup _ _ Hb) as (_ & Hsd & _).
  rewrite Hs in Hsd. simpl in Hsd.
  exists (upd ∪ old), (with_announcements st
    (<[oid := upd ∪ old]> (announcements_collection st))).
  split_and!.
  - apply update_announcement_Return. exists oid, old, upd.
    split_and!; try done. intros ->. by rewrite lookup_empty in Hsd.
  - simpl. by rewrite lookup_insert_eq.
  - by rewrite lookup_union, Hsd; destruct (old !! "start_date").
Qed.

(** *** Delete *)

Lemma delete_announcement_missing id username st oid :
  authenticated st username = true →
  ObjectId_of id = Some oid →
  announcements_collection st !! oid = None →
  delete_announcement id username st
  = (Raise (HTTPException 404 "Announcement not found"), st).
Proof.
  intros Hauth Hid Hnone. unfold delete_announcement, delete_one.
  rewrite Hauth, Hid, Hnone. simpl. by rewrite with_announcements_same.
Qed.

Lemma delete_announcement_found id username st oid :
  authenticated st username = true →
  ObjectId_of id = Some oid →
  is_Some (announcements_collection st !! oid) →
  delete_announcement id username st
  = (Return deleted_payload,
     with_announcements st (delete oid (announcements_collection st))).
Proof.
  intros Hauth Hid [d Hd]. unfold delete_announcement, delete_one.
  by rewrite Hauth, Hid, Hd.
Qed.

Lemma delete_announcement_state id username st :
  (delete_announcement id username st).2 = st
  ∨ ∃ oid, (delete_announcement id username st).2
           = with_announcements st (delete oid (announcements_collection st)).
Proof.
  unfold delete_announcement, delete_one.
  destruct (authenticated st username); simpl; [|by left].
  destruct (ObjectId_of id) as [oid|]; [|by left].
  destruct (announcements_collection st !! oid); simpl.
  - right. by exists oid.
  - left. apply with_announcements_same.
Qed.

(** C6: for an authenticated username and a valid identifier, a delete
    fails as [NotFound] when no announcement has the identifier; when one
    has, the delete returns the confirmation, the announcement is gone
    from the store, and a second delete of the identifier fails as
    [NotFound]. *)
Theorem delete_removes_or_not_found id username st oid :
  authenticated st username = true →
  ObjectId_of id = Some oid →
  (announcements_collection st !! oid = None →
     fails_as NotFound (HTTPException 404 "Announcement not found")
       (delete_announcement id username st) st)
  ∧ (is_Some (announcements_collection st !! oid) →
     ∃ st',
       delete_announcement id username st = (Return deleted_payload, st')
       ∧ announcements_collection st'
         = delete oid (announcements_collection st)
       ∧ announcements_collection st' !! oid = None
       ∧ teachers_collection st' = teachers_collection st
       ∧ fails_as NotFound (HTTPException 404 "Announcement not found")
           (delete_announcement id username st') st').
Proof.
  intros Hauth Hid. split.
  - intros Hnone. split; [|done]. by apply (delete_announcement_missing _ _ _ oid).
  - intros Hsome. eexists. split; [by apply delete_announcement_found|].
    simpl. split_and!; try done.
    + apply lookup_delete_eq.
    + split; [|done].
      apply (delete_announcement_missing _ _ _ oid); try done.
      simpl. apply lookup_delete_eq.
Qed.

(** *** Create *)

Lemma announcement_doc_lookup (created_at : string) (a : AnnouncementCreate)
    (username : string) :
  let doc := announcement_doc created_at a username in
  doc !! "message" = Some (VStr (ac_message a))
  ∧ doc !! "start_date" = Some (opt_value (ac_start_date a))
  ∧ doc !! "expiration_date" = Some (VStr (ac_expiration_date a))
  ∧ doc !! "created_by" = Some (VStr username)
  ∧ doc !! "created_at" = Some (VStr created_at).
Proof. unfold announcement_doc. simpl. split_and!; by simplify_map_eq. Qed.

Lemma create_announcement_Return created_at oid (a : AnnouncementCreate)
    username st (r : Document) st' :
  create_announcement created_at oid a username st = (Return r, st') ↔
  authenticated st username = true
  ∧ create_dates_parse a = true
  ∧ announcements_collection st !! oid = None
  ∧ r = stringify_id oid (announcement_doc created_at a username)
  ∧ st' = with_announcements st
            (<[oid := announcement_doc created_at a username]>
               (announcements_collection st)).
Proof.
  unfold create_announcement, insert_one. split.
  - destruct (authenticated st username); simpl; [|done].
    destruct (create_dates_parse a); simpl; [|done].
    destruct (announcements_collection st !! oid); [done|].
    by intros [= <- <-].
  - by intros (-> & -> & -> & -> & ->).
Qed.

Lemma create_announcement_Raise created_at oid (a : AnnouncementCreate)
    username st (e : Failure) st' :
  create_announcement created_at oid a username st = (Raise e, st') → st' = st.
Proof.
  unfold create_announcement, insert_one.
  destruct (authenticated st username); simpl; [|by intros [= _ <-]].
  destruct (create_dates_parse a); simpl; [|by intros [= _ <-]].
  destruct (announcements_collection st !! oid); [by intros [= _ <-]|done].
Qed.

Lemma create_dates_parse_false (a : AnnouncementCreate) :
  create_dates_parse a = false ↔
  parses (ac_expiration_date a) = false
  ∨ ∃ s, ac_start_date a = Some s ∧ s ≠ "" ∧ parses s = false.
Proof.
  unfold create_dates_parse. rewrite andb_false_iff. split.
  - intros [Hs|He]; [right|by left].
    destruct (ac_start_date a) as [s|]; [|done].
    destruct (str_truthy s) eqn:Ht; [|done].
    exists s. by apply str_truthy_true in Ht.
  - intros [He|(s & -> & Hne & Hs)]; [by right|left].
    apply str_truthy_true in Hne. by rewrite Hne.
Qed.

(** An empty [start_date] is never handed to the parser. *)
Lemma create_dates_parse_empty_start (a : AnnouncementCreate) :
  ac_start_date a = Some "" →
  create_dates_parse a = parses (ac_expiration_date a).
Proof. intros Hs. unfold create_dates_parse. by rewrite Hs. Qed.

(** C7: a create that returns has persisted, under an identifier no
    stored announcement had, a document whose [message], [start_date] and
    [expiration_date] are those of the request, whose [created_by] is the
    username and whose [created_at] is the reading of the clock; the
    record returned is that document with the identifier stringified; the
    rest of the store is as before; and a later create that returns has
    another identifier. *)
Theorem create_persists_input created_at oid (a : AnnouncementCreate)
    username st (r : Document) st' :
  create_announcement created_at oid a username st = (Return r, st') →
  ∃ doc,
    announcements_collection st !! oid = None
    ∧ announcements_collection st' = <[oid := doc]> (announcements_collection st)
    ∧ announcements_collection st' !! oid = Some doc
    ∧ doc !! "message" = Some (VStr (ac_message a))
    ∧ doc !! "start_date" = Some (opt_value (ac_start_date a))
    ∧ doc !! "expiration_date" = Some (VStr (ac_expiration_date a))
    ∧ doc !! "created_by" = Some (VStr username)
    ∧ doc !! "created_at" = Some (VStr created_at)
    ∧ r = stringify_id oid doc
    ∧ r !! "_id" = Some (VStr (str_of oid))
    ∧ teachers_collection st' = teachers_collection st
    ∧ (∀ created_at' oid' (a' : AnnouncementCreate) username'
         (r' : Document) st'',
         create_announcement created_at' oid' a' username' st' = (Return r', st'') →
         oid' ≠ oid
         ∧ (Inj (=) (=) str_of → r' !! "_id" ≠ r !! "_id")).
Proof.
  intros (Hauth & Hdates & Hfresh & -> & ->)%create_announcement_Return.
  exists (announcement_doc created_at a username). simpl.
  pose proof (announcement_doc_lookup created_at a username)
    as (Hm & Hs & He & Hb & Hc).
  split_and!; try done.
  - apply lookup_insert_eq.
  - intros created_at' oid' a' username' r' st''
      (_ & _ & Hfresh' & -> & _)%create_announcement_Return.
    simpl in Hfresh'.
    assert (oid' ≠ oid) as Hne.
    { intros ->. by rewrite lookup_insert_eq in Hfresh'. }
    split; [done|]. intros Hinj. unfold stringify_id.
    rewrite !lookup_insert_eq. intros [= Heq]. exact (Hne (Hinj _ _ Heq)).
Qed.

(** C8, as amended: for an authenticated username, a create fails as
    [InvalidArgument] when the [expiration_date] does not parse or a
    non-empty [start_date] does not parse, and the store is as before;
    so does the request whose body has passed validation, and a request
    with such dates fails, the store as before, whatever its body. *)
Theorem create_rejects_unparsable_dates created_at oid (a : AnnouncementCreate)
    username st :
  authenticated st username = true →
  (parses (ac_expiration_date a) = false
   ∨ ∃ s, ac_start_date a = Some s ∧ s ≠ "" ∧ parses s = false) →
  fails_as InvalidArgument (HTTPException 400 "Invalid date format")
    (create_announcement created_at oid a username st) st
  ∧ (AnnouncementCreate_valid a = true →
     fails_as InvalidArgument (HTTPException 400 "Invalid date format")
       (post_announcement created_at oid a username st) st)
  ∧ ∃ e, post_announcement created_at oid a username st = (Raise e, st).
Proof.
  intros Hauth Hbad%create_dates_parse_false.
  assert (create_announcement created_at oid a username st
          = (Raise (HTTPException 400 "Invalid date format"), st)) as Hc.
  { unfold create_announcement. by rewrite Hauth, Hbad. }
  split; [by split|].
  unfold post_announcement. split.
  - intros ->. by split.
  - destruct (AnnouncementCreate_valid a); [|by eexists].
    rewrite Hc. by eexists.
Qed.

(** *** The routes *)

Lemma create_announcement_unauthenticated created_at oid
    (a : AnnouncementCreate) username st :
  teachers_collection st !! username = None →
  create_announcement created_at oid a username st
  = (Raise (HTTPException 401 "Authentication required"), st).
Proof.
  intros Hnone%authenticated_false.
  unfold create_announcement. by rewrite Hnone.
Qed.

Lemma update_announcement_unauthenticated id (a : AnnouncementUpdate)
    username st :
  teachers_collection st !! username = None →
  update_announcement id a username st
  = (Raise (HTTPException 401 "Authentication required"), st).
Proof.
  intros Hnone%authenticated_false.
  unfold update_announcement. by rewrite Hnone.
Qed.

Lemma delete_announcement_unauthenticated id username st :
  teachers_collection st !! username = None →
  delete_announcement id username st
  = (Raise (HTTPException 401 "Authentication required"), st).
Proof.
  intros Hnone%authenticated_false.
  unfold delete_announcement. by rewrite Hnone.
Qed.

(** C4, as amended: for a username with no teacher record, a create or
    an update whose body meets the constraints of its model fails as
    [Unauthorized], whatever the identifier and the dates and also when
    the update gives no field; a delete fails as [Unauthorized], whatever
    the identifier; and every create, update or delete, whatever its
    body, fails and leaves the store as it was. *)
Theorem unauthenticated_request_fails username st :
  teachers_collection st !! username = None →
  (∀ created_at oid (body : AnnouncementCreate),
     AnnouncementCreate_valid body = true →
     fails_as Unauthorized (HTTPException 401 "Authentication required")
       (post_announcement created_at oid body username st) st)
  ∧ (∀ id (body : AnnouncementUpdate),
       AnnouncementUpdate_valid body = true →
       fails_as Unauthorized (HTTPException 401 "Authentication required")
         (put_announcement id body username st) st)
  ∧ (∀ id,
       fails_as Unauthorized (HTTPException 401 "Authentication required")
         (delete_announcement id username st) st)
  ∧ (∀ created_at oid (body : AnnouncementCreate),
       ∃ e, post_announcement created_at oid body username st = (Raise e, st))
  ∧ (∀ id (body : AnnouncementUpdate),
       ∃ e, put_announcement id body username st = (Raise e, st)).
Proof.
  intros Hnone. unfold fails_as, post_announcement,
    put_announcement. split_and!.
  - intros created_at oid body ->.
    by rewrite create_announcement_unauthenticated.
  - intros id body ->. by rewrite update_announcement_unauthenticated.
  - intros id. by rewrite delete_announcement_unauthenticated.
  - intros created_at oid body. destruct (AnnouncementCreate_valid body).
    + rewrite create_announcement_unauthenticated by done. by eexists.
    + by eexists.
  - intros id body. destruct (AnnouncementUpdate_valid body).
    + rewrite update_announcement_unauthenticated by done. by eexists.
    + by eexists.
Qed.

(** *** The bounds on the message *)

Lemma messages_bounded_insert st oid d (m : string) :
  messages_bounded st →
  d !! "message" = Some (VStr m) → (1 ≤ len m ≤ 500)%nat →
  messages_bounded
    (with_announcements st (<[oid := d]> (announcements_collection st))).
Proof.
  intros Hst Hd Hm oid' d'. simpl.
  destruct (decide (oid = oid')) as [->|Hne].
  - rewrite lookup_insert_eq. intros [= <-]. by exists m.
  - rewrite lookup_insert_ne by done. apply Hst.
Qed.

Lemma messages_bounded_delete st oid :
  messages_bounded st →
  messages_bounded
    (with_announcements st (delete oid (announcements_collection st))).
Proof.
  intros Hst oid' d'. simpl.
  intros [_ Hd]%lookup_delete_Some. by apply (Hst oid').
Qed.

Lemma post_announcement_bounded created_at oid (body : AnnouncementCreate)
    username st :
  messages_bounded st →
  messages_bounded (post_announcement created_at oid body username st).2.
Proof.
  intros Hst. unfold post_announcement.
  destruct (AnnouncementCreate_valid body) eqn:Hv; [|done].
  destruct (create_announcement created_at oid body username st)
    as [[r|e] st'] eqn:Hc; simpl.
  - apply create_announcement_Return in Hc as (_ & _ & _ & _ & ->).
    apply (messages_bounded_insert _ _ _ (ac_message body)); [done| |].
    + apply announcement_doc_lookup.
    + by apply message_length_ok_spec.
  - by apply create_announcement_Raise in Hc as ->.
Qed.

Lemma put_announcement_bounded id (body : AnnouncementUpdate) username st :
  messages_bounded st →
  messages_bounded (put_announcement id body username st).2.
Proof.
  intros Hst. unfold put_announcement.
  destruct (AnnouncementUpdate_valid body) eqn:Hv; [|done].
  destruct (update_announcement id body username st)
    as [[r|e] st'] eqn:Hu; simpl.
  - apply update_announcement_Return in Hu
      as (oid & old & upd & _ & _ & Hold & Hb & _ & _ & ->).
    apply build_update_doc_lookup in Hb as (Hm & _).
    unfold AnnouncementUpdate_valid in Hv.
    destruct (au_message body) as [m|].
    + apply (messages_bounded_insert _ _ _ m); [done| |].
      * rewrite lookup_union, Hm. simpl. by destruct (old !! "message").
      * by apply message_length_ok_spec.
    + destruct (Hst _ _ Hold) as (m & Hom & Hlen).
      apply (messages_bounded_insert _ _ _ m); [done| |done].
      rewrite lookup_union, Hm, Hom. done.
  - by apply update_announcement_Raise in Hu as ->.
Qed.

Lemma serve_bounded (r : Request) st :
  messages_bounded st → messages_bounded (serve r st).2.
Proof.
  intros Hst. destruct r as [created_at oid body username
                            |id body username|id username]; simpl.
  - by apply post_announcement_bounded.
  - by apply put_announcement_bounded.
  - destruct (delete_announcement_state id username st) as [->|[oid ->]];
      [done|]. by apply messages_bounded_delete.
Qed.

Lemma serve_all_bounded (rs : list Request) st :
  messages_bounded st → messages_bounded (serve_all rs st).
Proof.
  revert st. induction rs as [|r rs IH]; intros st Hst; simpl; [done|].
  by apply IH, serve_bounded.
Qed.

Lemma messages_bounded_empty st :
  announcements_collection st = ∅ → messages_bounded st.
Proof. intros Hst oid d. by rewrite Hst, lookup_empty. Qed.

(** C9, as amended: a create request returns only when its message has
    between 1 and 500 characters; a message outside these bounds is
    turned down by the validation of the body, before the handler runs and
    with the store as it was, and the failure has status 422 and is none
    of the kinds of the contract; so it is for an update request that
    gives a message; hence the messages of the store stay within these
    bounds under any sequence of requests, and are within them in any
    store grown from an empty collection. *)
Theorem message_bounds_enforced :
  (∀ created_at oid (body : AnnouncementCreate) username st (r : Document) st',
     post_announcement created_at oid body username st = (Return r, st') →
     (1 ≤ len (ac_message body) ≤ 500)%nat)
  ∧ (∀ created_at oid (body : AnnouncementCreate) username st,
       ¬ (1 ≤ len (ac_message body) ≤ 500)%nat →
       post_announcement created_at oid body username st
       = (Raise RequestValidationError, st))
  ∧ (∀ id (body : AnnouncementUpdate) username st (m : string)
       (r : Document) st',
       au_message body = Some m →
       put_announcement id body username st = (Return r, st') →
       (1 ≤ len m ≤ 500)%nat)
  ∧ (∀ id (body : AnnouncementUpdate) username st (m : string),
       au_message body = Some m →
       ¬ (1 ≤ len m ≤ 500)%nat →
       put_announcement id body username st
       = (Raise RequestValidationError, st))
  ∧ http_status RequestValidationError = 422
  ∧ kind_of RequestValidationError = None
  ∧ (∀ (rs : list Request) st,
       messages_bounded st → messages_bounded (serve_all rs st))
  ∧ (∀ (rs : list Request) st,
       announcements_collection st = ∅ → messages_bounded (serve_all rs st)).
Proof.
  unfold post_announcement, put_announcement,
    AnnouncementCreate_valid, AnnouncementUpdate_valid.
  split_and!; try reflexivity.
  - intros created_at oid body username st r st'.
    destruct (message_length_ok (ac_message body)) eqn:Hv; [|done].
    intros _. by apply message_length_ok_spec.
  - intros created_at oid body username st Hlen.
    destruct (message_length_ok (ac_message body)) eqn:Hv; [|done].
    by apply message_length_ok_spec in Hv.
  - intros id body username st m r st' ->.
    destruct (message_length_ok m) eqn:Hv; [|done].
    intros _. by apply message_length_ok_spec.
  - intros id body username st m -> Hlen.
    destruct (message_length_ok m) eqn:Hv; [|done].
    by apply message_length_ok_spec in Hv.
  - apply serve_all_bounded.
  - intros rs st Hst. by apply serve_all_bounded, messages_bounded_empty.
Qed.

End Handlers.

(** * The handlers on concrete requests *)

Lemma principal_authenticated :
  authenticated st_sample "principal" = true.
Proof. reflexivity. Qed.

Lemma isoformat_shape_rejects_empty : parses isoformat_shape "" = false.
Proof. reflexivity. Qed.

(** The list-active operation on [st_sample] keeps the running
    announcement. *)
Lemma list_active_excludes_outside_window_witness :
  stringify_id hex_str_of oid1 running_doc
  ∈ get_active_announcements hex_str_of now_sample st_sample.
Proof.
  destruct (list_active_excludes_outside_window hex_str_of now_sample st_sample)
    as ((kept & -> & _ & Hkept) & _).
  apply list_elem_of_fmap. exists (oid1, running_doc). split; [done|].
  apply Hkept. split.
  - reflexivity.
  - intros Hx%excluded_test. vm_compute in Hx. discriminate.
Defined.

(** The announcement of [st_sample] that expires at [now_sample] is
    returned. *)
Lemma list_active_keeps_expiring_now_witness :
  expiring_now_doc !! "expiration_date" = Some (VStr now_sample)
  ∧ stringify_id hex_str_of oid2 expiring_now_doc
    ∈ get_active_announcements hex_str_of now_sample st_sample.
Proof.
  assert (expiring_now_doc !! "expiration_date" = Some (VStr now_sample))
    as Hexp by reflexivity.
  split; [exact Hexp|].
  apply (list_active_keeps_expiring_now hex_str_of now_sample st_sample
           oid2 expiring_now_doc).
  - reflexivity.
  - exact Hexp.
  - intros (s & Hs & _). vm_compute in Hs. discriminate.
Defined.

(** An announcement whose [expiration_date] equals the current timestamp
    is in the list of active announcements. *)
Lemma list_active_returns_expiring_now :
  announcements_collection st_sample !! oid2 = Some expiring_now_doc
  ∧ expiring_now_doc !! "expiration_date" = Some (VStr now_sample)
  ∧ get_active_announcements hex_str_of now_sample st_sample
    = [stringify_id hex_str_of oid1 running_doc;
       stringify_id hex_str_of oid2 expiring_now_doc].
Proof. split_and!; reflexivity. Qed.

(** An update of the message alone leaves both dates of the announcement
    as they were. *)
Lemma update_changes_only_supplied_fields_witness :
  ∃ (r : Document) (st' : HexState) (old new : Document),
    update_announcement hex_ObjectId_of hex_str_of isoformat_shape
      oid1 update_message_only "principal" st_sample = (Return r, st')
    ∧ announcements_collection st_sample !! oid1 = Some old
    ∧ announcements_collection st' !! oid1 = Some new
    ∧ new !! "message" = Some (VStr "Science fair moved to Monday")
    ∧ new !! "start_date" = old !! "start_date"
    ∧ new !! "expiration_date" = old !! "expiration_date"
    ∧ new !! "created_by" = old !! "created_by"
    ∧ new !! "created_at" = old !! "created_at".
Proof.
  pose (upd := update_announcement hex_ObjectId_of hex_str_of isoformat_shape
                 oid1 update_message_only "principal" st_sample).
  assert (upd = (Return (stringify_id hex_str_of oid1
                           (<["message" := VStr "Science fair moved to Monday"]>
                              running_doc)),
                 with_announcements st_sample
                   (<[oid1 := <["message" := VStr "Science fair moved to Monday"]>
                                running_doc]>
                      (announcements_collection st_sample)))) as Hupd
    by reflexivity.
  destruct (update_changes_only_supplied_fields hex_ObjectId_of hex_str_of
              isoformat_shape _ _ _ _ _ _ Hupd)
    as (oid & old & new & Hid & Hold & Hnew & _ & Hm & Hs & He & Hk & _).
  assert (hex_ObjectId_of oid1 = Some oid1) as Hid1 by reflexivity.
  rewrite Hid1 in Hid. injection Hid as <-.
  eexists _, _, old, new. split; [exact Hupd|].
  split_and!.
  - exact Hold.
  - exact Hnew.
  - exact Hm.
  - exact Hs.
  - exact He.
  - by apply Hk.
  - by apply Hk.
Defined.

(** A username without a teacher record cannot delete. *)
Lemma unauthenticated_request_fails_witness :
  teachers_collection st_sample !! "visitor" = None
  ∧ fails_as Unauthorized (HTTPException 401 "Authentication required")
      (delete_announcement hex_ObjectId_of oid1 "visitor" st_sample) st_sample
  ∧ fails_as Unauthorized (HTTPException 401 "Authentication required")
      (put_announcement hex_ObjectId_of hex_str_of isoformat_shape
         "not-an-id" update_nothing "visitor" st_sample) st_sample.
Proof.
  assert (teachers_collection st_sample !! "visitor" = None) as Hnone
    by reflexivity.
  destruct (unauthenticated_request_fails hex_ObjectId_of hex_str_of
              isoformat_shape "visitor" st_sample Hnone)
    as (_ & Hput & Hdel & _).
  split_and!; [exact Hnone | apply Hdel | apply Hput; reflexivity].
Defined.

(** A create whose message is empty, sent under a username without a
    teacher record, is turned down by the validation of the body and not
    as [Unauthorized]. *)
Lemma unauthenticated_invalid_body_not_unauthorized :
  teachers_collection st_empty !! "visitor" = None
  ∧ post_announcement hex_str_of isoformat_shape now_sample oid3
      create_empty_message "visitor" st_empty
    = (Raise RequestValidationError, st_empty)
  ∧ kind_of RequestValidationError ≠ Some Unauthorized
  ∧ ¬ ∃ e, fails_as Unauthorized e
             (post_announcement hex_str_of isoformat_shape now_sample oid3
                create_empty_message "visitor" st_empty) st_empty.
Proof.
  split_and!.
  - reflexivity.
  - reflexivity.
  - discriminate.
  - intros (e & Hr & Hk). vm_compute in Hr.
    injection Hr as <-. discriminate.
Qed.

(** The four failures of an update, each past the checks before it. *)
Lemma update_failures_in_order_witness :
  fails_as InvalidArgument (HTTPException 400 "Invalid announcement ID")
    (update_announcement hex_ObjectId_of hex_str_of isoformat_shape
       "not-an-id" update_bad_expiration "principal" st_sample) st_sample
  ∧ fails_as NotFound (HTTPException 404 "Announcement not found")
      (update_announcement hex_ObjectId_of hex_str_of isoformat_shape
         oid3 update_bad_expiration "principal" st_sample) st_sample
  ∧ fails_as InvalidArgument (HTTPException 400 "Invalid date format")
      (update_announcement hex_ObjectId_of hex_str_of isoformat_shape
         oid1 update_bad_expiration "principal" st_sample) st_sample
  ∧ fails_as InvalidArgument (HTTPException 400 "No fields to update")
      (update_announcement hex_ObjectId_of hex_str_of isoformat_shape
         oid1 update_nothing "principal" st_sample) st_sample.
Proof.
  pose proof principal_authenticated as Hauth.
  split_and!.
  - destruct (update_failures_in_order hex_ObjectId_of hex_str_of
                isoformat_shape "not-an-id" update_bad_expiration
                "principal" st_sample Hauth) as (Hbad & _).
    apply Hbad. reflexivity.
  - destruct (update_failures_in_order hex_ObjectId_of hex_str_of
                isoformat_shape oid3 update_bad_expiration
                "principal" st_sample Hauth) as (_ & Hmissing & _).
    apply (Hmissing oid3); reflexivity.
  - destruct (update_failures_in_order hex_ObjectId_of hex_str_of
                isoformat_shape oid1 update_bad_expiration
                "principal" st_sample Hauth) as (_ & _ & Hdate & _).
    apply (Hdate oid1 "next week"); try reflexivity.
    exists running_doc. reflexivity.
  - destruct (update_failures_in_order hex_ObjectId_of hex_str_of
                isoformat_shape oid1 update_nothing
                "principal" st_sample Hauth) as (_ & _ & _ & Hnone & _).
    apply (Hnone oid1); try reflexivity.
    exists running_doc. reflexivity.
Defined.

(** Deleting an announcement of [st_sample], then deleting it again. *)
Lemma delete_removes_or_not_found_witness :
  ∃ st' : HexState,
    delete_announcement hex_ObjectId_of oid1 "principal" st_sample
    = (Return deleted_payload, st')
    ∧ announcements_collection st' !! oid1 = None
    ∧ fails_as NotFound (HTTPException 404 "Announcement not found")
        (delete_announcement hex_ObjectId_of oid1 "principal" st') st'.
Proof.
  assert (hex_ObjectId_of oid1 = Some oid1) as Hid by reflexivity.
  destruct (delete_removes_or_not_found hex_ObjectId_of oid1 "principal"
              st_sample oid1 principal_authenticated Hid) as (_ & Hfound).
  destruct Hfound as (st' & Hdel & _ & Hgone & _ & Hagain).
  - exists running_doc. reflexivity.
  - by exists st'.
Defined.

(** A create on the empty collection, and a second create after it. *)
Lemma create_persists_input_witness :
  ∃ (r : Document) (st' : HexState) (doc : Document),
    create_announcement hex_str_of isoformat_shape now_sample oid3
      create_body "principal" st_empty = (Return r, st')
    ∧ announcements_collection st' !! oid3 = Some doc
    ∧ doc !! "message" = Some (VStr "Picture day is Tuesday")
    ∧ doc !! "start_date" = Some (VStr "2026-11-05T00:00:00Z")
    ∧ doc !! "expiration_date" = Some (VStr "2026-11-12T00:00:00Z")
    ∧ doc !! "created_by" = Some (VStr "principal")
    ∧ doc !! "created_at" = Some (VStr now_sample)
    ∧ r !! "_id" = Some (VStr oid3)
    ∧ create_announcement hex_str_of isoformat_shape now_sample oid3
        create_body "principal" st' = (Raise DuplicateKeyError, st').
Proof.
  pose (doc := announcement_doc now_sample create_body "principal").
  pose (st' := with_announcements st_empty
                 (<[oid3 := doc]> (announcements_collection st_empty))).
  assert (create_announcement hex_str_of isoformat_shape now_sample oid3
            create_body "principal" st_empty
          = (Return (stringify_id hex_str_of oid3 doc), st')) as Hc
    by reflexivity.
  destruct (create_persists_input hex_str_of isoformat_shape _ _ _ _ _ _ _ Hc)
    as (doc' & _ & _ & Hdoc & Hm & Hs & He & Hb & Hat & _ & Hid & _).
  exists (stringify_id hex_str_of oid3 doc), st', doc'.
  split_and!; done.
Defined.

(** A create whose [expiration_date] does not parse. *)
Lemma create_rejects_unparsable_dates_witness :
  parses isoformat_shape "next week" = false
  ∧ fails_as InvalidArgument (HTTPException 400 "Invalid date format")
      (create_announcement hex_str_of isoformat_shape now_sample oid3
         create_bad_expiration "principal" st_sample) st_sample.
Proof.
  assert (parses isoformat_shape "next week" = false) as Hp
    by reflexivity.
  split; [exact Hp|].
  destruct (create_rejects_unparsable_dates hex_str_of isoformat_shape
              now_sample oid3 create_bad_expiration "principal" st_sample
              principal_authenticated) as (Hfails & _).
  - left. exact Hp.
  - exact Hfails.
Defined.

(** A create that gives the empty string as [start_date], which does not
    parse, returns and persists the document. *)
Lemma create_accepts_blank_start_date :
  ac_start_date create_blank_start = Some ""
  ∧ parses isoformat_shape "" = false
  ∧ authenticated st_empty "principal" = true
  ∧ ∃ (r : Document) (st' : HexState),
      post_announcement hex_str_of isoformat_shape now_sample oid3
        create_blank_start "principal" st_empty = (Return r, st')
      ∧ announcements_collection st' !! oid3
        = Some (announcement_doc now_sample create_blank_start "principal")
      ∧ announcement_doc now_sample create_blank_start "principal"
          !! "start_date" = Some (VStr "")
      ∧ ∀ e, ¬ fails_as InvalidArgument e
                 (post_announcement hex_str_of isoformat_shape now_sample oid3
                    create_blank_start "principal" st_empty) st_empty.
Proof.
  split_and!; try reflexivity.
  eexists _, _. split_and!; try reflexivity.
  intros e [Hr _]. discriminate Hr.
Qed.

(** A create whose message is empty is turned down by the validation of
    the body. *)
Lemma message_bounds_enforced_witness :
  post_announcement hex_str_of isoformat_shape now_sample oid3
    create_empty_message "principal" st_empty
  = (Raise RequestValidationError, st_empty)
  ∧ (1 ≤ len (ac_message create_accented) ≤ 500)%nat
  ∧ messages_bounded
      (serve_all hex_ObjectId_of hex_str_of isoformat_shape
         [Post now_sample oid3 create_body "principal";
          Put oid3 update_message_only "principal"] st_empty).
Proof.
  destruct (@message_bounds_enforced string _ _ hex_ObjectId_of hex_str_of
              isoformat_shape)
    as (Haccept & Hreject & _ & _ & _ & _ & _ & Hgrown).
  split; [|split].
  - apply Hreject. simpl. lia.
  - apply (Haccept now_sample oid3 create_accented "principal" st_empty
             (stringify_id hex_str_of oid3
                (announcement_doc now_sample create_accented "principal"))
             (with_announcements st_empty
                (<[oid3 := announcement_doc now_sample create_accented
                             "principal"]>
                   (announcements_collection st_empty)))).
    reflexivity.
  - apply Hgrown. reflexivity.
Defined.

(** A message of 251 characters of two bytes each is within the bounds. *)
Lemma accented_message_accepted :
  String.length (ac_message create_accented) = 502
  ∧ len (ac_message create_accented) = 251
  ∧ AnnouncementCreate_valid create_accented = true.
Proof. split_and!; vm_compute; reflexivity. Qed.

(** A create whose message is empty is turned down with status 422,
    which is not the [InvalidArgument] of the contract. *)
Lemma invalid_message_not_invalid_argument :
  authenticated st_empty "principal" = true
  ∧ ¬ (1 ≤ len (ac_message create_empty_message) ≤ 500)%nat
  ∧ post_announcement hex_str_of isoformat_shape now_sample oid3
      create_empty_message "principal" st_empty
    = (Raise RequestValidationError, st_empty)
  ∧ http_status RequestValidationError = 422
  ∧ ¬ ∃ e, fails_as InvalidArgument e
             (post_announcement hex_str_of isoformat_shape now_sample oid3
                create_empty_message "principal" st_empty) st_empty.
Proof.
  split_and!; try reflexivity.
  - simpl. lia.
  - intros (e & Hr & Hk).
    assert (e = RequestValidationError) as -> by (injection Hr; congruence).
    vm_compute in Hk. discriminate Hk.
Qed.

(** An update whose [start_date] is no date at all stores it. *)
Lemma update_start_date_stored_verbatim_witness :
  parses isoformat_shape "whenever" = false
  ∧ ∃ (new : Document) (st' : HexState),
      update_announcement hex_ObjectId_of hex_str_of isoformat_shape
        oid1 update_start_whenever "principal" st_sample
      = (Return (stringify_id hex_str_of oid1 new), st')
      ∧ announcements_collection st' !! oid1 = Some new
      ∧ new !! "start_date" = Some (VStr "whenever").
Proof.
  split; [reflexivity|].
  apply (update_start_date_stored_verbatim hex_ObjectId_of hex_str_of
           isoformat_shape oid1 update_start_whenever "principal" st_sample
           oid1 running_doc "whenever" principal_authenticated).
  - reflexivity.
  - reflexivity.
  - reflexivity.
  - intros x Hx. discriminate Hx.
Defined.

(** * Further properties of the router *)

(** ** The order on timestamps *)

Lemma str_lt_Lt (a b : string) :
  str_lt a b = true ↔ String.compare a b = Lt.
Proof.
  unfold str_lt, String.ltb. destruct (String.compare a b); split; congruence.
Qed.

Lemma str_lt_trans (a b c : string) :
  str_lt a b = true → str_lt b c = true → str_lt a c = true.
Proof.
  rewrite !str_lt_Lt.
  change String.compare with OrderedTypeEx.String_as_OT.cmp.
  rewrite !OrderedTypeEx.String_as_OT.cmp_lt.
  apply OrderedTypeEx.String_as_OT.lt_trans.
Qed.

(** [a < b] and [b <= c] give [a < c]. *)
Lemma str_lt_le_trans (a b c : string) :
  str_lt a b = true → str_lt c b = false → str_lt a c = true.
Proof.
  intros Hab Hcb.
  destruct (String.compare c b) eqn:Hc.
  - apply String.compare_eq_iff in Hc. by subst.
  - apply str_lt_Lt in Hc. congruence.
  - apply (str_lt_trans a b c); [done|]. apply str_lt_Lt.
    rewrite String.compare_antisym, Hc. done.
Qed.

(** [a <= b] and [b < c] give [a < c]. *)
Lemma str_le_lt_trans (a b c : string) :
  str_lt b a = false → str_lt b c = true → str_lt a c = true.
Proof.
  intros Hba Hbc.
  destruct (String.compare b a) eqn:Hc.
  - apply String.compare_eq_iff in Hc. by subst.
  - apply str_lt_Lt in Hc. congruence.
  - apply (str_lt_trans a b c); [|done]. apply str_lt_Lt.
    rewrite String.compare_antisym, Hc. done.
Qed.

(** ** [replace('Z', '+00:00')] *)

Lemma replace_Z_app (s t : string) :
  replace_Z (s ++ t) = replace_Z s ++ replace_Z t.
Proof.
  induction s as [|c s IH]; simpl; [done|].
  rewrite IH. by destruct (Ascii.eqb c "Z").
Qed.

Lemma Z_free_cons (c : ascii) (s : string) :
  Z_free (String c s) ↔ c ≠ "Z"%char ∧ Z_free s.
Proof.
  unfold Z_free. split.
  - intros Hf. split.
    + intros ->. by apply (Hf 0).
    + intros n. apply (Hf (S n)).
  - intros [Hc Hs] [|n]; simpl; [congruence | apply Hs].
Qed.

Lemma Z_free_app (s t : string) : Z_free s → Z_free t → Z_free (s ++ t).
Proof.
  induction s as [|c s IH]; simpl; [done|].
  intros [Hc Hs]%Z_free_cons Ht. apply Z_free_cons.
  split; [done | by apply IH].
Qed.

(** X13: the replacement leaves no [Z] in any position of the string
    handed to the parser, changes nothing in a string that has none, and
    turns a final [Z] after such a string into [+00:00]. *)
Theorem replace_Z_removes_every_Z (s : string) :
  Z_free (replace_Z s)
  ∧ (Z_free s → replace_Z s = s)
  ∧ (Z_free s → replace_Z (s ++ "Z") = s ++ "+00:00").
Proof.
  split_and!.
  - induction s as [|c s IH]; simpl.
    + intros n. by destruct n.
    + destruct (Ascii.eqb c "Z") eqn:Hc.
      * apply (Z_free_app "+00:00"); [|done].
        intros n. do 6 (destruct n as [|n]; [simpl; congruence|]). done.
      * apply Z_free_cons. split; [|done].
        intros ->. by rewrite Ascii.eqb_refl in Hc.
  - induction s as [|c s IH]; simpl; [done|].
    intros [Hc Hs]%Z_free_cons.
    apply Ascii.eqb_neq in Hc. rewrite Hc, IH; done.
  - intros Hs. rewrite replace_Z_app. f_equal.
    induction s as [|c s IH]; simpl; [done|].
    apply Z_free_cons in Hs as [Hc Hs].
    apply Ascii.eqb_neq in Hc. rewrite Hc, IH; done.
Qed.

(** ** Listing and the window *)

Section Listing.

Context {ObjectId : Type} `{Countable ObjectId}.
Variable str_of : ObjectId -> string.

Implicit Types (st : State ObjectId) (oid : ObjectId) (a : Document).

Lemma stringify_id_agree oid oid' a a' (k : string) :
  stringify_id str_of oid a = stringify_id str_of oid' a' →
  k ≠ "_id" → a !! k = a' !! k.
Proof.
  intros Heq Hk. apply (f_equal (.!! k)) in Heq.
  unfold stringify_id in Heq. by rewrite !lookup_insert_ne in Heq.
Qed.

Lemma excluded_agree a a' (now : string) :
  a !! "start_date" = a' !! "start_date" →
  a !! "expiration_date" = a' !! "expiration_date" →
  excluded a now ↔ excluded a' now.
Proof. intros Hs He. unfold excluded. by rewrite Hs, He. Qed.

(** A stored announcement is in the list exactly when it is not excluded. *)
Lemma get_active_stored (now : string) st oid a :
  announcements_collection st !! oid = Some a →
  stringify_id str_of oid a ∈ get_active_announcements str_of now st
  ↔ ¬ excluded a now.
Proof.
  intros Hst. split; [|by apply get_active_intro].
  unfold get_active_announcements. rewrite active_loop_filter.
  intros ([oid' a'] & Heq & [Hkeep _]%list_elem_of_filter)%list_elem_of_fmap.
  simpl in *. intros Hex.
  apply (excluded_agree a a') in Hex.
  - apply excluded_test in Hex. congruence.
  - by apply (stringify_id_agree oid oid').
  - by apply (stringify_id_agree oid oid').
Qed.


(** Stores whose expiration dates parse, under a parser that turns down
    the empty string, have no empty [expiration_date]. *)
Lemma expirations_parse_not_blank (fromisoformat : string -> bool) st :
  fromisoformat "" = false →
  expirations_parse fromisoformat st → expirations_not_blank st.
Proof.
  intros Hempty Hst oid d Hd Hblank.
  destruct (Hst _ _ Hd) as (e & He & Hp).
  rewrite Hblank in He. injection He as <-.
  unfold parses in Hp. simpl in Hp. congruence.
Qed.


(** X9: the times at which a stored announcement is listed form an
    interval: listed at [n1] and at [n3], it is listed at every [n2] with
    [n1 <= n2 <= n3]; in particular an announcement that has dropped out
    for its expiration does not come back. *)
Theorem active_times_form_an_interval (n1 n2 n3 : string) st oid a :
  announcements_collection st !! oid = Some a →
  stringify_id str_of oid a ∈ get_active_announcements str_of n1 st →
  stringify_id str_of oid a ∈ get_active_announcements str_of n3 st →
  str_lt n2 n1 = false →
  str_lt n3 n2 = false →
  stringify_id str_of oid a ∈ get_active_announcements str_of n2 st.
Proof.
  intros Hst H1%get_active_stored H3%get_active_stored H12 H23; try done.
  apply get_active_stored; [done|].
  intros [(s & Hs & Hgt) | (s & Hs & Hne & Hlt)].
  - apply H1. left. exists s. split; [done|].
    unfold str_gt in *. by apply (str_le_lt_trans n1 n2 s).
  - apply H3. right. exists s. split_and!; try done.
    by apply (str_lt_le_trans s n2 n3).
Qed.

(** An announcement whose [start_date] is greater than its non-empty
    [expiration_date] is excluded at every time. *)
Lemma inverted_window_excluded (now s e : string) a :
  a !! "start_date" = Some (VStr s) →
  a !! "expiration_date" = Some (VStr e) →
  e ≠ "" → str_gt s e = true →
  excluded a now.
Proof.
  intros Hs He Hne Hgt. unfold str_gt in Hgt.
  destruct (str_gt s now) eqn:Hnow.
  - left. by exists s.
  - right. exists e. split_and!; try done.
    by apply (str_lt_le_trans e s now).
Qed.

(** X14: when [str] tells identifiers apart, no record occurs twice in
    the list of active announcements. *)
Theorem list_active_has_no_duplicates (now : string) st :
  Inj (=) (=) str_of →
  NoDup (get_active_announcements str_of now st).
Proof.
  intros Hinj. unfold get_active_announcements. rewrite active_loop_filter.
  apply NoDup_fmap_2_strong; [|apply NoDup_filter, NoDup_map_to_list].
  intros [o1 a1] [o2 a2] [_ H1]%list_elem_of_filter [_ H2]%list_elem_of_filter.
  simpl. intros Heq.
  apply elem_of_map_to_list in H1, H2.
  assert (o1 = o2) as ->.
  { apply Hinj. apply (f_equal (.!! "_id")) in Heq.
    unfold stringify_id in Heq. rewrite !lookup_insert_eq in Heq.
    congruence. }
  congruence.
Qed.

End Listing.

(** ** How the operations compose *)

Section Compositions.

Context {ObjectId : Type} `{Countable ObjectId}.
Variable ObjectId_of : string -> option ObjectId.
Variable str_of : ObjectId -> string.
Variable fromisoformat : string -> bool.

Local Abbreviation create_announcement := (create_announcement str_of fromisoformat).
Local Abbreviation update_announcement :=
  (update_announcement ObjectId_of str_of fromisoformat).
Local Abbreviation delete_announcement := (delete_announcement ObjectId_of).
Local Abbreviation get_all_announcements := (get_all_announcements str_of).
Local Abbreviation get_active_announcements := (get_active_announcements str_of).
Local Abbreviation post_announcement := (post_announcement str_of fromisoformat).
Local Abbreviation put_announcement :=
  (put_announcement ObjectId_of str_of fromisoformat).
Local Abbreviation serve := (serve ObjectId_of str_of fromisoformat).
Local Abbreviation serve_all := (serve_all ObjectId_of str_of fromisoformat).
Local Abbreviation parses := (parses fromisoformat).
Local Abbreviation build_update_doc := (build_update_doc fromisoformat).
Local Abbreviation create_dates_parse := (create_dates_parse fromisoformat).
Local Abbreviation stringify_id := (stringify_id str_of).
Local Abbreviation expirations_parse := (expirations_parse fromisoformat).

Implicit Types (st : State ObjectId) (oid : ObjectId) (d : Document).

Lemma with_announcements_twice st (c c' : gmap ObjectId Document) :
  with_announcements (with_announcements st c) c' = with_announcements st c'.
Proof. done. Qed.

(** *** GET /announcements/all *)


(** X2: the active announcements are among all announcements, in the
    same order. *)
Theorem list_active_within_list_all (now : string) username st
    (l : list Document) :
  get_all_announcements username st = Return l →
  sublist (get_active_announcements now st) l.
Proof.
  unfold get_all_announcements, get_active_announcements.
  destruct (authenticated st username); simpl; [|done].
  intros [= <-]. rewrite active_loop_filter.
  apply fmap_sublist, sublist_filter.
Qed.

(** *** Create, then list or delete *)

Lemma created_doc_excluded (created_at : string) (a : AnnouncementCreate)
    (username now : string) :
  excluded (announcement_doc created_at a username) now ↔
  (∃ s, ac_start_date a = Some s ∧ str_gt s now = true)
  ∨ (ac_expiration_date a ≠ "" ∧ str_lt (ac_expiration_date a) now = true).
Proof.
  pose proof (announcement_doc_lookup created_at a username)
    as (_ & Hs & He & _).
  unfold excluded. rewrite Hs, He. split.
  - intros [(s & Heq & Hgt) | (s & Heq & Hne & Hlt)].
    + left. exists s. destruct (ac_start_date a); simplify_eq/=; done.
    + right. by simplify_eq.
  - intros [(s & -> & Hgt) | [Hne Hlt]].
    + left. by exists s.
    + right. by eexists.
Qed.

(** X3: the record a create returns is in the list of all announcements
    right after, and in the list of active announcements at a time [now]
    exactly when the [start_date] of the request is not greater than
    [now] and its [expiration_date], unless empty, is not less. *)
Theorem created_announcement_listed_in_window created_at oid
    (a : AnnouncementCreate) username st (r : Document) st' :
  create_announcement created_at oid a username st = (Return r, st') →
  (∃ l, get_all_announcements username st' = Return l ∧ r ∈ l)
  ∧ ∀ now, r ∈ get_active_announcements now st' ↔
      ¬ ((∃ s, ac_start_date a = Some s ∧ str_gt s now = true)
         ∨ (ac_expiration_date a ≠ ""
            ∧ str_lt (ac_expiration_date a) now = true)).
Proof.
  intros (Hauth & _ & _ & -> & ->)%create_announcement_Return.
  assert (announcements_collection
            (with_announcements st
               (<[oid := announcement_doc created_at a username]>
                  (announcements_collection st))) !! oid
          = Some (announcement_doc created_at a username)) as Hst
    by apply lookup_insert_eq.
  split.
  - unfold get_all_announcements, authenticated in *. simpl.
    destruct (teachers_collection st !! username); [|done]. simpl.
    eexists. split; [done|].
    apply (list_elem_of_fmap_2 (λ p, stringify_id p.1 p.2) _
             (oid, announcement_doc created_at a username)).
    by apply elem_of_map_to_list.
  - intros now. rewrite (get_active_stored str_of now _ _ _ Hst).
    by rewrite created_doc_excluded.
Qed.

(** X10: nothing in a create compares the two dates: a request whose
    [start_date] is greater than its [expiration_date] is accepted like
    any other, and the announcement it stores is listed as active at no
    time. *)
Theorem create_accepts_inverted_window created_at oid
    (a : AnnouncementCreate) username st (s : string) :
  authenticated st username = true →
  create_dates_parse a = true →
  announcements_collection st !! oid = None →
  ac_start_date a = Some s →
  ac_expiration_date a ≠ "" →
  str_gt s (ac_expiration_date a) = true →
  ∃ (r : Document) st',
    create_announcement created_at oid a username st = (Return r, st')
    ∧ announcements_collection st' !! oid
      = Some (announcement_doc created_at a username)
    ∧ ∀ now, r ∉ get_active_announcements now st'.
Proof.
  intros Hauth Hdates Hfresh Hs Hne Hgt.
  eexists _, _. split; [by apply create_announcement_Return|].
  assert (announcements_collection
            (with_announcements st
               (<[oid := announcement_doc created_at a username]>
                  (announcements_collection st))) !! oid
          = Some (announcement_doc created_at a username)) as Hst
    by apply lookup_insert_eq.
  split; [done|].
  intros now. rewrite (get_active_stored str_of now _ _ _ Hst).
  intros Hnot. apply Hnot.
  pose proof (announcement_doc_lookup created_at a username)
    as (_ & Hsd & He & _).
  rewrite Hs in Hsd. by apply (inverted_window_excluded now s (ac_expiration_date a)).
Qed.

(** X4: when the constructor of [ObjectId] reads back what [str] prints,
    deleting the identifier a create has returned succeeds and leaves the
    database exactly as it was before the create. *)
Theorem create_then_delete_restores created_at oid (a : AnnouncementCreate)
    username st (r : Document) st' :
  ObjectId_of (str_of oid) = Some oid →
  create_announcement created_at oid a username st = (Return r, st') →
  r !! "_id" = Some (VStr (str_of oid))
  ∧ delete_announcement (str_of oid) username st' = (Return deleted_payload, st).
Proof.
  intros Hrt (Hauth & _ & Hfresh & -> & ->)%create_announcement_Return.
  split; [apply lookup_insert_eq|].
  rewrite (delete_announcement_found ObjectId_of _ _ _ oid); try done.
  - simpl. rewrite delete_insert_id by done.
    rewrite with_announcements_twice. by rewrite with_announcements_same.
  - simpl. rewrite lookup_insert_eq. by eexists.
Qed.

(** *** Update *)

Lemma build_update_doc_strings (a : AnnouncementUpdate) (upd : Document)
    (k : string) (v : Value) :
  build_update_doc a = Return upd → upd !! k = Some v → ∃ s, v = VStr s.
Proof.
  intros (Hm & Hs & He & Hk)%build_update_doc_lookup Hv.
  destruct (decide (k = "message")) as [->|];
    [rewrite Hm in Hv; destruct (au_message a); simplify_eq/=; by eexists|].
  destruct (decide (k = "start_date")) as [->|];
    [rewrite Hs in Hv; destruct (au_start_date a); simplify_eq/=; by eexists|].
  destruct (decide (k = "expiration_date")) as [->|];
    [rewrite He in Hv; destruct (au_expiration_date a); simplify_eq/=;
     by eexists|].
  rewrite Hk in Hv by done. done.
Qed.

(** X5: an update that has returned can be sent again: the second run
    returns the same record and leaves the database as the first did. *)
Theorem update_twice_same id (a : AnnouncementUpdate) username st
    (r : Document) st' :
  update_announcement id a username st = (Return r, st') →
  update_announcement id a username st' = (Return r, st').
Proof.
  intros (oid & old & upd & Hauth & Hid & Hold & Hb & Hne & -> & ->)
    %update_announcement_Return.
  apply update_announcement_Return.
  exists oid, (upd ∪ old), upd. simpl.
  assert (upd ∪ (upd ∪ old) = upd ∪ old) as Hidem.
  { apply map_eq. intros k. rewrite !lookup_union.
    by destruct (upd !! k), (old !! k). }
  split_and!; try done.
  - by rewrite lookup_insert_eq.
  - by rewrite Hidem.
  - by rewrite with_announcements_twice, Hidem, insert_insert_eq.
Qed.

(** X6: an update, whatever its outcome, adds no announcement and
    removes none, and a field that held a string before holds a string
    after: no field is removed or set back to [None]. *)
Theorem update_never_removes id (a : AnnouncementUpdate) username st :
  dom (announcements_collection (update_announcement id a username st).2)
  = dom (announcements_collection st)
  ∧ ∀ oid (old : Document) (k s : string),
      announcements_collection st !! oid = Some old →
      old !! k = Some (VStr s) →
      ∃ (new : Document) (s' : string),
        announcements_collection (update_announcement id a username st).2 !! oid
        = Some new
        ∧ new !! k = Some (VStr s').
Proof.
  destruct (update_announcement id a username st) as [[r|e] st'] eqn:Hu.
  - apply update_announcement_Return in Hu
      as (oid0 & old0 & upd & _ & _ & Hold0 & Hb & _ & _ & ->). simpl.
    split.
    + apply dom_insert_lookup_L. by eexists.
    + intros oid old k s Hold Hk.
      destruct (decide (oid0 = oid)) as [->|Hne].
      * rewrite lookup_insert_eq.
        assert (old0 = old) as -> by congruence.
        destruct (upd !! k) as [v|] eqn:Hv.
        -- destruct (build_update_doc_strings _ _ _ _ Hb Hv) as [s' ->].
           exists (upd ∪ old), s'. split; [done|].
           by apply lookup_union_Some_l.
        -- exists (upd ∪ old), s. split; [done|].
           by rewrite lookup_union, Hv, Hk.
      * rewrite lookup_insert_ne by done. by exists old, s.
  - apply update_announcement_Raise in Hu as ->. simpl.
    split; [done|]. intros oid old k s Hold Hk. by exists old, s.
Qed.

(** *** Sequences of requests *)

Lemma delete_announcement_Raise id username st (e : Failure) st' :
  delete_announcement id username st = (Raise e, st') → st' = st.
Proof.
  unfold delete_announcement, delete_one.
  destruct (authenticated st username); simpl; [|by intros [= _ <-]].
  destruct (ObjectId_of id) as [oid|]; [|by intros [= _ <-]].
  destruct (announcements_collection st !! oid); simpl; [done|].
  intros [= _ <-]. by rewrite with_announcements_same.
Qed.

Lemma post_announcement_Raise created_at oid (body : AnnouncementCreate)
    username st (e : Failure) st' :
  post_announcement created_at oid body username st = (Raise e, st') → st' = st.
Proof.
  unfold post_announcement.
  destruct (AnnouncementCreate_valid body); [|by intros [= _ <-]].
  apply create_announcement_Raise.
Qed.

Lemma put_announcement_Raise id (body : AnnouncementUpdate) username st
    (e : Failure) st' :
  put_announcement id body username st = (Raise e, st') → st' = st.
Proof.
  unfold put_announcement.
  destruct (AnnouncementUpdate_valid body); [|by intros [= _ <-]].
  apply update_announcement_Raise.
Qed.

(** X11: a request that fails changes nothing: whenever a create, an
    update or a delete raises, the database it leaves is the one it
    found. *)
Theorem failed_request_changes_nothing (r : Request) st (e : Failure) st' :
  serve r st = (Raise e, st') → st' = st.
Proof.
  destruct r as [created_at oid body username|id body username|id username];
    simpl.
  - apply post_announcement_Raise.
  - apply put_announcement_Raise.
  - apply delete_announcement_Raise.
Qed.

Lemma serve_state (r : Request) st :
  ∃ c, (serve r st).2 = with_announcements st c.
Proof.
  destruct (serve r st) as [[d|e] st'] eqn:Hr; simpl.
  - destruct r as [created_at oid body username|id body username|id username];
      simpl in Hr.
    + unfold post_announcement in Hr.
      destruct (AnnouncementCreate_valid body); [|done].
      apply create_announcement_Return in Hr as (_ & _ & _ & _ & ->).
      by eexists.
    + unfold put_announcement in Hr.
      destruct (AnnouncementUpdate_valid body); [|done].
      apply update_announcement_Return in Hr
        as (? & ? & ? & _ & _ & _ & _ & _ & _ & ->).
      by eexists.
    + destruct (delete_announcement_state ObjectId_of id username st)
        as [Hs|[oid Hs]]; rewrite Hr in Hs; simpl in Hs; subst st'.
      * exists (announcements_collection st).
        by rewrite with_announcements_same.
      * by eexists.
  - assert (st' = st) as ->.
    { destruct r; simpl in Hr.
      - by apply post_announcement_Raise in Hr.
      - by apply put_announcement_Raise in Hr.
      - by apply delete_announcement_Raise in Hr. }
    exists (announcements_collection st). by rewrite with_announcements_same.
Qed.

(** X7: no sequence of creates, updates and deletes writes to the
    teachers collection, so no request changes who is authenticated. *)
Theorem requests_never_touch_teachers (rs : list Request) st :
  teachers_collection (serve_all rs st) = teachers_collection st
  ∧ ∀ username,
      authenticated (serve_all rs st) username = authenticated st username.
Proof.
  assert (teachers_collection (serve_all rs st) = teachers_collection st) as Ht.
  { revert st. induction rs as [|r rs IH]; intros st; simpl; [done|].
    rewrite IH. by destruct (serve_state r st) as [c ->]. }
  split; [done|]. intros username. unfold authenticated. by rewrite Ht.
Qed.

(** *** The expiration date of a stored announcement *)

Lemma build_update_doc_expiration (a : AnnouncementUpdate) (upd : Document)
    (x : string) :
  build_update_doc a = Return upd →
  au_expiration_date a = Some x → parses x = true.
Proof.
  unfold build_update_doc. intros Hb Hx. rewrite Hx in Hb.
  by destruct (parses x).
Qed.

Lemma expirations_parse_insert st oid d (x : string) :
  expirations_parse st →
  d !! "expiration_date" = Some (VStr x) → parses x = true →
  expirations_parse
    (with_announcements st (<[oid := d]> (announcements_collection st))).
Proof.
  intros Hst Hd Hx oid' d'. simpl.
  destruct (decide (oid = oid')) as [->|Hne].
  - rewrite lookup_insert_eq. intros [= <-]. by exists x.
  - rewrite lookup_insert_ne by done. apply Hst.
Qed.

Lemma serve_expirations_parse (r : Request) st :
  expirations_parse st → expirations_parse (serve r st).2.
Proof.
  intros Hst.
  destruct (serve r st) as [[d|e] st'] eqn:Hr; simpl.
  - destruct r as [created_at oid body username|id body username|id username];
      simpl in Hr.
    + unfold post_announcement in Hr.
      destruct (AnnouncementCreate_valid body); [|done].
      apply create_announcement_Return in Hr as (_ & Hdates & _ & _ & ->).
      apply (expirations_parse_insert _ _ _ (ac_expiration_date body));
        [done| |].
      * apply announcement_doc_lookup.
      * unfold create_dates_parse in Hdates.
        by apply andb_true_iff in Hdates as [_ ?].
    + unfold put_announcement in Hr.
      destruct (AnnouncementUpdate_valid body); [|done].
      apply update_announcement_Return in Hr
        as (oid & old & upd & _ & _ & Hold & Hb & _ & _ & ->).
      pose proof (build_update_doc_lookup _ _ _ Hb) as (_ & _ & He & _).
      destruct (au_expiration_date body) as [x|] eqn:Hx.
      * apply (expirations_parse_insert _ _ _ x); [done| |].
        -- by apply lookup_union_Some_l.
        -- by apply (build_update_doc_expiration body upd).
      * destruct (Hst _ _ Hold) as (x & Hox & Hp).
        apply (expirations_parse_insert _ _ _ x); [done| |done].
        by rewrite lookup_union, He, Hox.
    + destruct (delete_announcement_state ObjectId_of id username st)
        as [Hs|[oid Hs]]; rewrite Hr in Hs; simpl in Hs; subst st'; [done|].
      intros oid' d'. simpl. intros [_ Hd]%lookup_delete_Some.
      by apply (Hst oid').
  - assert (st' = st) as ->; [|done].
    destruct r; simpl in Hr.
    + by apply post_announcement_Raise in Hr.
    + by apply put_announcement_Raise in Hr.
    + by apply delete_announcement_Raise in Hr.
Qed.

Lemma serve_all_expirations_parse (rs : list Request) st :
  expirations_parse st → expirations_parse (serve_all rs st).
Proof.
  revert st. induction rs as [|r rs IH]; intros st Hst; simpl; [done|].
  by apply IH, serve_expirations_parse.
Qed.

(** X8: the requests keep the expiration dates parsable: if every stored
    announcement has an [expiration_date] that parses, so it is after any
    sequence of creates, updates and deletes; in a database grown from an
    empty collection every announcement has one. *)
Theorem expiration_dates_stay_parsable (rs : list Request) st :
  (expirations_parse st → expirations_parse (serve_all rs st))
  ∧ (announcements_collection st = ∅ → expirations_parse (serve_all rs st)).
Proof.
  split; [apply serve_all_expirations_parse|].
  intros Hempty. apply serve_all_expirations_parse.
  intros oid d. by rewrite Hempty, lookup_empty.
Qed.

(** A database grown from an empty collection holds no empty
    [expiration_date], when the parser turns down the empty string. *)
Lemma grown_store_not_blank (rs : list Request) st :
  fromisoformat "" = false →
  announcements_collection st = ∅ →
  expirations_not_blank (serve_all rs st).
Proof.
  intros Hempty_str Hempty.
  apply (expirations_parse_not_blank fromisoformat); [done|].
  apply serve_all_expirations_parse. intros oid d.
  by rewrite Hempty, lookup_empty.
Qed.

(** X12: when the parser turns down the empty string, in a database
    grown from an empty collection a stored announcement is listed as
    active exactly when neither its [start_date] is greater than the
    current timestamp nor its [expiration_date] less: there the rule needs
    no proviso for an empty [expiration_date]. *)
Theorem grown_store_lists_as_worded (rs : list Request) st (now : string)
    oid (a : Document) :
  fromisoformat "" = false →
  announcements_collection st = ∅ →
  announcements_collection (serve_all rs st) !! oid = Some a →
  stringify_id oid a ∈ get_active_announcements now (serve_all rs st)
  ↔ ¬ excluded_as_worded a now.
Proof.
  intros Hempty_str Hempty Hst.
  rewrite (get_active_stored str_of now _ _ _ Hst).
  assert (expirations_parse (serve_all rs st)) as Hinv.
  { apply serve_all_expirations_parse. intros o d.
    by rewrite Hempty, lookup_empty. }
  destruct (Hinv _ _ Hst) as (x & Hx & Hp).
  assert (x ≠ "") as Hne.
  { intros ->. unfold parses, parses in Hp. simpl in Hp. congruence. }
  unfold excluded, excluded_as_worded. rewrite Hx.
  split; intros Hn Hex; apply Hn.
  - destruct Hex as [Hs | (s & [= <-] & Hlt)]; [by left|].
    right. by exists x.
  - destruct Hex as [Hs | (s & [= <-] & _ & Hlt)]; [by left|].
    right. by exists x.
Qed.

End Compositions.

(** * The further properties on concrete requests *)

Lemma replace_Z_removes_every_Z_witness :
  replace_Z "2026-11-12T00:00:00Z" = "2026-11-12T00:00:00+00:00".
Proof.
  destruct (replace_Z_removes_every_Z "2026-11-12T00:00:00") as (_ & _ & Hz).
  apply Hz. intros n.
  do 19 (destruct n as [|n]; [simpl; congruence|]). done.
Defined.

Lemma running_doc_listed (now : string) :
  not_started running_doc now || expired running_doc now = false →
  stringify_id hex_str_of oid1 running_doc
  ∈ get_active_announcements hex_str_of now st_sample.
Proof.
  intros Hin. apply get_active_intro; [reflexivity|].
  intros Hx%excluded_test. congruence.
Qed.

(** Listed on the 2nd and on the 20th of November, the running
    announcement is listed at [now_sample]. *)
Lemma active_times_form_an_interval_witness :
  stringify_id hex_str_of oid1 running_doc
  ∈ get_active_announcements hex_str_of now_sample st_sample.
Proof.
  apply (active_times_form_an_interval hex_str_of
           "2026-11-02T00:00:00+00:00" now_sample "2026-11-20T00:00:00+00:00"
           st_sample oid1 running_doc).
  - reflexivity.
  - apply running_doc_listed. vm_compute. reflexivity.
  - apply running_doc_listed. vm_compute. reflexivity.
  - vm_compute. reflexivity.
  - vm_compute. reflexivity.
Defined.

Lemma list_active_has_no_duplicates_witness :
  NoDup (get_active_announcements hex_str_of now_sample st_sample).
Proof.
  apply list_active_has_no_duplicates. intros x y Hxy. exact Hxy.
Defined.


Lemma list_active_within_list_all_witness :
  ∃ l : list Document,
    get_all_announcements hex_str_of "principal" st_sample = Return l
    ∧ sublist (get_active_announcements hex_str_of now_sample st_sample) l.
Proof.
  eexists. split; [reflexivity|].
  apply (list_active_within_list_all hex_str_of now_sample "principal").
  reflexivity.
Defined.

(** An announcement created with an expiration date in the past is in the
    list of all announcements and not in the list of active ones. *)
Lemma created_announcement_listed_in_window_witness :
  ∃ (r : Document) (st' : HexState),
    create_announcement hex_str_of isoformat_shape now_sample oid3
      create_past "principal" st_empty = (Return r, st')
    ∧ (∃ l, get_all_announcements hex_str_of "principal" st' = Return l ∧ r ∈ l)
    ∧ r ∉ get_active_announcements hex_str_of now_sample st'.
Proof.
  pose (doc := announcement_doc now_sample create_past "principal").
  pose (st' := with_announcements st_empty
                 (<[oid3 := doc]> (announcements_collection st_empty))).
  assert (create_announcement hex_str_of isoformat_shape now_sample oid3
            create_past "principal" st_empty
          = (Return (stringify_id hex_str_of oid3 doc), st')) as Hc
    by reflexivity.
  destruct (created_announcement_listed_in_window hex_str_of isoformat_shape
              _ _ _ _ _ _ _ Hc) as (Hall & Hactive).
  exists (stringify_id hex_str_of oid3 doc), st'.
  split_and!; [exact Hc | exact Hall |].
  intros Hin%Hactive. apply Hin. right. split; [discriminate|].
  vm_compute. reflexivity.
Defined.

Lemma create_accepts_inverted_window_witness :
  ∃ (r : Document) (st' : HexState),
    create_announcement hex_str_of isoformat_shape now_sample oid3
      create_inverted "principal" st_empty = (Return r, st')
    ∧ ∀ now, r ∉ get_active_announcements hex_str_of now st'.
Proof.
  destruct (create_accepts_inverted_window hex_str_of isoformat_shape
              now_sample oid3 create_inverted "principal" st_empty
              "2026-12-01T00:00:00Z") as (r & st' & Hc & _ & Hnever).
  - reflexivity.
  - vm_compute. reflexivity.
  - reflexivity.
  - reflexivity.
  - discriminate.
  - vm_compute. reflexivity.
  - by exists r, st'.
Defined.

Lemma create_then_delete_restores_witness :
  ∃ (r : Document) (st' : HexState),
    create_announcement hex_str_of isoformat_shape now_sample oid3
      create_body "principal" st_sample = (Return r, st')
    ∧ r !! "_id" = Some (VStr oid3)
    ∧ delete_announcement hex_ObjectId_of oid3 "principal" st'
      = (Return deleted_payload, st_sample).
Proof.
  pose (doc := announcement_doc now_sample create_body "principal").
  pose (st' := with_announcements st_sample
                 (<[oid3 := doc]> (announcements_collection st_sample))).
  assert (create_announcement hex_str_of isoformat_shape now_sample oid3
            create_body "principal" st_sample
          = (Return (stringify_id hex_str_of oid3 doc), st')) as Hc
    by reflexivity.
  assert (hex_ObjectId_of (hex_str_of oid3) = Some oid3) as Hrt by reflexivity.
  destruct (create_then_delete_restores hex_ObjectId_of hex_str_of
              isoformat_shape _ _ _ _ _ _ _ Hrt Hc) as (Hid & Hdel).
  exists (stringify_id hex_str_of oid3 doc), st'.
  split_and!; [exact Hc | exact Hid | exact Hdel].
Defined.

Lemma update_twice_same_witness :
  ∃ (r : Document) (st' : HexState),
    update_announcement hex_ObjectId_of hex_str_of isoformat_shape
      oid1 update_all_fields "principal" st_sample = (Return r, st')
    ∧ update_announcement hex_ObjectId_of hex_str_of isoformat_shape
        oid1 update_all_fields "principal" st' = (Return r, st').
Proof.
  pose (new := (<["expiration_date" := VStr "2026-12-01T00:00:00Z"]>
                 (<["start_date" := VStr "2026-11-02T00:00:00Z"]>
                 (<["message" := VStr "Science fair moved to Monday"]> ∅)))
               ∪ running_doc).
  pose (st' := with_announcements st_sample
                 (<[oid1 := new]> (announcements_collection st_sample))).
  assert (update_announcement hex_ObjectId_of hex_str_of isoformat_shape
            oid1 update_all_fields "principal" st_sample
          = (Return (stringify_id hex_str_of oid1 new), st')) as Hu
    by reflexivity.
  exists (stringify_id hex_str_of oid1 new), st'. split; [exact Hu|].
  exact (update_twice_same hex_ObjectId_of hex_str_of isoformat_shape
           _ _ _ _ _ _ Hu).
Defined.

Lemma update_never_removes_witness :
  ∃ (new : Document) (s' : string),
    announcements_collection
      (update_announcement hex_ObjectId_of hex_str_of isoformat_shape
         oid1 update_message_only "principal" st_sample).2 !! oid1 = Some new
    ∧ new !! "start_date" = Some (VStr s').
Proof.
  destruct (update_never_removes hex_ObjectId_of hex_str_of isoformat_shape
              oid1 update_message_only "principal" st_sample) as (_ & Hkeep).
  apply (Hkeep oid1 running_doc "start_date" "2026-11-01T00:00:00+00:00");
    reflexivity.
Defined.

(** A delete of an identifier that names nothing fails and changes
    nothing. *)
Lemma failed_request_changes_nothing_witness :
  ∃ (e : Failure) (st' : HexState),
    serve hex_ObjectId_of hex_str_of isoformat_shape
      (Delete oid3 "principal") st_sample = (Raise e, st')
    ∧ st' = st_sample.
Proof.
  assert (serve hex_ObjectId_of hex_str_of isoformat_shape
            (Delete oid3 "principal") st_sample
          = (Raise (HTTPException 404 "Announcement not found"), st_sample))
    as Hs by reflexivity.
  exists (HTTPException 404 "Announcement not found"), st_sample.
  split; [exact Hs|].
  exact (failed_request_changes_nothing hex_ObjectId_of hex_str_of
           isoformat_shape _ _ _ _ Hs).
Defined.

Lemma expiration_dates_stay_parsable_witness :
  expirations_parse isoformat_shape
    (serve_all hex_ObjectId_of hex_str_of isoformat_shape
       [Post now_sample oid3 create_body "principal";
        Put oid3 update_all_fields "principal";
        Delete oid1 "principal"] st_empty).
Proof.
  apply expiration_dates_stay_parsable. reflexivity.
Defined.

(** After a create on the empty collection the announcement is listed at
    a time inside its window. *)
Lemma grown_store_lists_as_worded_witness :
  stringify_id hex_str_of oid3
    (announcement_doc now_sample create_body "principal")
  ∈ get_active_announcements hex_str_of "2026-11-06T12:00:00+00:00"
      (serve_all hex_ObjectId_of hex_str_of isoformat_shape
         [Post now_sample oid3 create_body "principal"] st_empty).
Proof.
  apply (grown_store_lists_as_worded hex_ObjectId_of hex_str_of isoformat_shape
           [Post now_sample oid3 create_body "principal"] st_empty).
  - reflexivity.
  - reflexivity.
  - reflexivity.
  - intros [(s & Hs & Hgt) | (s & Hs & Hlt)].
    + assert (s = "2026-11-05T00:00:00Z") as -> by (vm_compute in Hs; congruence).
      vm_compute in Hgt. discriminate.
    + assert (s = "2026-11-12T00:00:00Z") as -> by (vm_compute in Hs; congruence).
      vm_compute in Hlt. discriminate.
Defined.

